(** * Site financials: balance engine, invoice mapping, funds increment, role gate

    A shallow embedding of the business logic of the construction-site
    financial tracker:

    - [Expenses.calculateSiteFinancials], the per-site balance summary of
      the Expenses page component (in src/lib/middleware/checkRole.ts, after
      the middleware),
    - [Invoices.mapInvoices] (src/pages/Invoices.tsx),
    - [IncrementFunds.handler] (supabase/functions/increment_funds/index.ts),
    - [Middleware.checkRole] (src/lib/middleware/checkRole.ts),
    - the rest of the Expenses page: the lists of the selected site
      ([SiteDetail]), the site filter, [handleCompleteSite] and
      [handleAddFunds] ([SitesPage]),
    - the search and [handleMakePayment] of the Invoices page
      ([InvoicesPage]),
    - [AdvanceForm.handleSubmit]
      (src/components/advances/AdvanceForm.tsx).

    Modelling conventions.

    - A monetary JavaScript [number] is an integer of [Z]: amounts are taken
      in whole currency units, on which the arithmetic of the source ([+],
      [-]) is exact.  Fractions, NaN and infinities are outside the model.
      Where a property depends on how JavaScript rounds, the balance engine
      is taken a second time on binary64 floating-point numbers
      ([Doubles]), and the statements on whole amounts say in which range
      the sums are exact.
    - A JavaScript value that may be missing is a [jsval]: [None] is
      [undefined], [Some v] is a defined JSON value.
    - A JavaScript object read by property name (a database row, a parsed
      request body) is a finite map from property names to JSON values.
    - [Array.prototype.reduce] is [fold_left]; [filter], [map] and [find]
      are the list functions of the same name; [includes] is a membership
      test by decidable equality. *)

From Stdlib Require Import ZArith String List DecimalString Permutation.
From stdpp Require Import base option list strings gmap.
From Corelib Require PrimFloat.

Local Open Scope Z_scope.

(* ===================================================================== *)
(** ** JavaScript values *)
(* ===================================================================== *)

Module JS.

#[warnings="-register-all"] Inductive json : Type :=
| JNull
| JBool (b : bool)
| JNum (z : Z)
| JStr (s : string)
| JArr (l : list json)
| JObj (o : gmap string json).

(** [None] is [undefined]. *)
Definition jsval : Type := option json.

Definition undefined : jsval := None.

(** ToBoolean. *)
Definition truthy (v : jsval) : bool :=
  match v with
  | None => false
  | Some JNull => false
  | Some (JBool b) => b
  | Some (JNum z) => negb (z =? 0)
  | Some (JStr s) => negb (String.eqb s EmptyString)
  | Some (JArr _) => true
  | Some (JObj _) => true
  end.

(** [a || b] for a defined [b]: the result is defined. *)
Definition js_or (a : jsval) (b : json) : json :=
  match a with
  | Some x => if truthy a then x else b
  | None => b
  end.

Definition is_undefined (v : jsval) : bool :=
  match v with
  | None => true
  | Some _ => false
  end.

(** [arr.includes(x)]. *)
Definition includes {A} `{EqDecision A} (arr : list A) (x : A) : bool :=
  existsb (fun y => bool_decide (y = x)) arr.

(** [v === s] for a string literal [s]. *)
Definition strict_eq_str (v : jsval) (s : string) : bool :=
  match v with
  | Some (JStr t) => String.eqb t s
  | _ => false
  end.

Definition Z_toString (z : Z) : string :=
  NilZero.string_of_int (Z.to_int z).

(** ToString on a defined value.  An array joins its elements with a
    comma, printing [null] elements as the empty string; an object prints
    as [[object Object]]. *)
Fixpoint js_toString (v : json) : string :=
  match v with
  | JNull => "null"
  | JBool true => "true"
  | JBool false => "false"
  | JNum z => Z_toString z
  | JStr s => s
  | JArr l =>
      String.concat ","
        (List.map (fun x => match x with
                            | JNull => EmptyString
                            | _ => js_toString x
                            end) l)
  | JObj _ => "[object Object]"
  end.

(** The operand of a binary [+] after ToPrimitive: a number ([null] is 0,
    [true] is 1, [false] is 0) or a string (strings themselves, arrays and
    objects through their [toString]). *)
Definition add_operand (v : json) : Z + string :=
  match v with
  | JNull => inl 0
  | JBool b => inl (if b then 1 else 0)
  | JNum z => inl z
  | JStr s => inr s
  | JArr _ | JObj _ => inr (js_toString v)
  end.

(** [a + b] on defined values: numeric addition when both operands are
    numbers after ToPrimitive, string concatenation otherwise. *)
Definition js_add (a b : json) : json :=
  match add_operand a, add_operand b with
  | inl x, inl y => JNum (x + y)
  | _, _ => JStr (js_toString a ++ js_toString b)
  end.

(** A plain object, read by property name: [o !! k] is [o.k], [None]
    when the object has no such property. *)
Abbreviation object := (gmap string json).

End JS.

Import JS.

(* ===================================================================== *)
(** ** The balance engine (Expenses page) *)
(* ===================================================================== *)

Module Expenses.

(** Modelled from the spec: the enum [AdvancePurpose] is declared in
    lib/types, which is not among the sources; the spec and the advance
    form list its members as ADVANCE, SAFETY_SHOES, TOOLS and OTHER.  A
    purpose read from the database is cast, not checked, so a value
    outside the enumeration can reach the engine: [Unlisted raw] is such a
    value (a string that is none of the four members). *)
Inductive AdvancePurpose : Type :=
| ADVANCE
| SAFETY_SHOES
| TOOLS
| OTHER
| Unlisted (raw : string).

#[global] Instance AdvancePurpose_eq_dec : EqDecision AdvancePurpose.
Proof. solve_decision. Defined.

(** The records carry the fields the page reads when it computes a
    summary. *)
Record Site := { site_id : string }.

Record Expense := { expense_siteId : string; expense_amount : Z }.

Record Advance := {
  advance_siteId : string;
  advance_amount : Z;
  advance_purpose : AdvancePurpose
}.

Record FundsReceived := { funds_siteId : string; funds_amount : Z }.

Record Invoice := {
  invoice_siteId : string;
  invoice_netAmount : Z;
  invoice_payment_by : jsval
}.

Record BalanceSummary := {
  fundsReceived : Z;
  totalExpenditure : Z;
  totalAdvances : Z;
  debitsToWorker : Z;
  invoicesPaid : Z;
  pendingInvoices : Z;
  totalBalance : Z
}.

Definition DEBIT_ADVANCE_PURPOSES : list AdvancePurpose :=
  [SAFETY_SHOES; TOOLS; OTHER].

Definition zeroSummary : BalanceSummary :=
  {| fundsReceived := 0;
     totalExpenditure := 0;
     totalAdvances := 0;
     debitsToWorker := 0;
     invoicesPaid := 0;
     pendingInvoices := 0;
     totalBalance := 0 |}.

(** [siteId] is [None] when the caller passes no id; [if (siteId)] is
    false for that and for the empty string. *)
Definition calculateSiteFinancials
    (sites : list Site) (expenses : list Expense) (advances : list Advance)
    (fundsReceived : list FundsReceived) (invoices : list Invoice)
    (siteId : option string) : BalanceSummary :=
  match siteId with
  | Some sid =>
      if negb (String.eqb sid EmptyString) then
        match find (fun s => String.eqb (site_id s) sid) sites with
        | Some site =>
            let totalExpenses :=
              fold_left (fun sum expense => sum + expense_amount expense)
                        expenses 0 in
            let totalFunds :=
              fold_left (fun sum fund => sum + funds_amount fund)
                        fundsReceived 0 in
            let totalAdvances :=
              fold_left (fun sum advance =>
                           if negb (includes DEBIT_ADVANCE_PURPOSES
                                             (advance_purpose advance))
                           then sum + advance_amount advance
                           else sum)
                        advances 0 in
            let totalDebitToWorker :=
              fold_left (fun sum advance =>
                           if includes DEBIT_ADVANCE_PURPOSES
                                       (advance_purpose advance)
                           then sum + advance_amount advance
                           else sum)
                        advances 0 in
            let supervisorInvoiceTotal :=
              fold_left (fun sum invoice => sum + invoice_netAmount invoice)
                        (List.filter
                           (fun invoice =>
                              strict_eq_str (invoice_payment_by invoice)
                                            "supervisor")
                           invoices)
                        0 in
            let totalBalance :=
              totalFunds - totalExpenses - totalAdvances
              - supervisorInvoiceTotal in
            {| fundsReceived := totalFunds;
               totalExpenditure := totalExpenses;
               totalAdvances := totalAdvances;
               debitsToWorker := totalDebitToWorker;
               invoicesPaid := supervisorInvoiceTotal;
               pendingInvoices := 0;
               totalBalance := totalBalance |}
        | None => zeroSummary
        end
      else zeroSummary
  | None => zeroSummary
  end.

(** The guard of the computing branch: a non-empty id that some site of
    the list carries. *)
Definition site_found (sites : list Site) (siteId : option string) : bool :=
  match siteId with
  | Some sid =>
      negb (String.eqb sid EmptyString)
      && existsb (fun s => String.eqb (site_id s) sid) sites
  | None => false
  end.

(** Reference sums, written as the specification words them: the sum of
    [f] over the records that satisfy [p]. *)
Fixpoint sum_over {A} (p : A -> bool) (f : A -> Z) (l : list A) : Z :=
  match l with
  | [] => 0
  | x :: l' => (if p x then f x else 0) + sum_over p f l'
  end.

Definition sum_all {A} (f : A -> Z) (l : list A) : Z :=
  sum_over (fun _ => true) f l.

Definition is_debit (a : Advance) : bool :=
  includes DEBIT_ADVANCE_PURPOSES (advance_purpose a).

Definition paid_by_supervisor (i : Invoice) : bool :=
  strict_eq_str (invoice_payment_by i) "supervisor".

(** The summary of the computing branch, with every [reduce] replaced by
    the sum it computes. *)
Definition computed (expenses : list Expense) (advances : list Advance)
    (funds : list FundsReceived) (invoices : list Invoice) : BalanceSummary :=
  {| fundsReceived := sum_all funds_amount funds;
     totalExpenditure := sum_all expense_amount expenses;
     totalAdvances := sum_over (fun a => negb (is_debit a)) advance_amount advances;
     debitsToWorker := sum_over is_debit advance_amount advances;
     invoicesPaid := sum_over paid_by_supervisor invoice_netAmount invoices;
     pendingInvoices := 0;
     totalBalance :=
       sum_all funds_amount funds
       - sum_all expense_amount expenses
       - sum_over (fun a => negb (is_debit a)) advance_amount advances
       - sum_over paid_by_supervisor invoice_netAmount invoices |}.

End Expenses.

(* ===================================================================== *)
(** ** The invoice view model (Invoices page) *)
(* ===================================================================== *)

Module Invoices.

(** A [Date] object by its time value; [None] is an invalid date. *)
Definition JsDate : Type := option Z.

(** The object literal built by [mapInvoices], field by field. *)
Record Invoice := {
  id : jsval;
  date : JsDate;
  partyId : jsval;
  partyName : jsval;
  material : jsval;
  quantity : Z;
  rate : Z;
  gstPercentage : Z;
  grossAmount : Z;
  netAmount : Z;
  materialItems : json;
  bankDetails : json;
  billUrl : json;
  invoiceImageUrl : json;
  paymentStatus : jsval;
  createdBy : json;
  createdAt : JsDate;
  approverType : json;
  siteId : jsval;
  status : jsval;
  vendorName : jsval;
  invoiceNumber : jsval;
  amount : Z
}.

Section Builtins.

(** The built-ins the mapping calls are parameters: the coercion
    [Number(v)], the constructor [new Date(v)], and [JSON.parse(s)], which
    is [None] when it throws a SyntaxError. *)
Variable Number_ : jsval -> Z.
Variable Date_new : jsval -> JsDate.
Variable JSON_parse : string -> option json.

(** [v ? JSON.parse(v.toString()) : fallback]; [None] when the parse
    throws. *)
Definition parse_or (v : jsval) (fallback : json) : option json :=
  match v with
  | Some x => if truthy v then JSON_parse (js_toString x) else Some fallback
  | None => Some fallback
  end.

(** One step of the [data.map] callback; [None] when it throws. *)
Definition mapInvoice (invoice : object) : option Invoice :=
  materialItems ← parse_or (invoice !! "material_items") (JArr []);
  bankDetails ← parse_or (invoice !! "bank_details") (JObj ∅);
  Some {|
    id := invoice !! "id";
    date := Date_new (invoice !! "date");
    partyId := invoice !! "party_id";
    partyName := invoice !! "party_name";
    material := invoice !! "material";
    quantity := Number_ (invoice !! "quantity");
    rate := Number_ (invoice !! "rate");
    gstPercentage := Number_ (invoice !! "gst_percentage");
    grossAmount := Number_ (invoice !! "gross_amount");
    netAmount := Number_ (invoice !! "net_amount");
    materialItems := materialItems;
    bankDetails := bankDetails;
    billUrl := js_or (invoice !! "bill_url") (JStr EmptyString);
    invoiceImageUrl := js_or (invoice !! "invoice_image_url") (JStr EmptyString);
    paymentStatus := invoice !! "payment_status";
    createdBy := js_or (invoice !! "created_by") (JStr EmptyString);
    createdAt := Date_new (invoice !! "created_at");
    approverType := js_or (invoice !! "approver_type") (JStr "ho");
    siteId := invoice !! "site_id";
    status := invoice !! "payment_status";
    vendorName := invoice !! "party_name";
    invoiceNumber := invoice !! "id";
    amount := Number_ (invoice !! "net_amount")
  |}.

(** [data.map(...)]: the rows in order; an exception in one callback
    aborts the whole mapping. *)
Definition mapInvoices (data : list object) : option (list Invoice) :=
  mapM mapInvoice data.

End Builtins.

(** The claim's premise on a row: [approver_type] is null or absent. *)
Definition approver_unrecorded (invoice : object) : Prop :=
  invoice !! "approver_type" = None \/ invoice !! "approver_type" = Some JNull.

End Invoices.

(* ===================================================================== *)
(** ** The increment_funds endpoint *)
(* ===================================================================== *)

Module IncrementFunds.

(** What a call to the database client resolves to: [{ data, error }] with
    exactly one of the two set. *)
Inductive result (A : Type) : Type :=
| Err (message : string)
| Ok (data : A).

Arguments Err {A} message.
Arguments Ok {A} data.

(** The client returned by [createClient], taken as created, by the two
    queries the handler sends: [from('sites').select('funds').eq('id', site_id).single()], which
    resolves to the one matching row, and
    [from('sites').update({ funds }).eq('id', site_id).select()]. *)
Record Client := {
  select_funds : json -> result object;
  update_funds : json -> json -> result json
}.

(** A request: its method and what [req.json()] resolves to, [None] when
    the body is not JSON and the promise rejects. *)
Record Request := {
  req_method : string;
  req_json : option json
}.

(** A response: its status and the value whose JSON text is the body,
    [None] for a [null] body.  Every response carries the same constant
    CORS headers, which are left out. *)
Record Response := {
  res_status : Z;
  res_body : option json
}.

(** An update sent to the database: the site id and the funds value. *)
Definition DbUpdate : Type := json * json.

(** [new Response(JSON.stringify(body), { headers, status })]. *)
Definition respond (status : Z) (body : object) : Response :=
  {| res_status := status; res_body := Some (JObj body) |}.

Definition error_body (message : string) : object :=
  {[ "error" := JStr message ]}.

(** [const { site_id, amount } = v]: destructuring [null] throws a
    TypeError; a property that the value does not have is [undefined]. *)
Definition destructure (v : json) : option (jsval * jsval) :=
  match v with
  | JNull => None
  | JObj o => Some (o !! "site_id", o !! "amount")
  | JBool _ | JNum _ | JStr _ | JArr _ => Some (undefined, undefined)
  end.

(** The body of the [try] block; [None] when it throws.  The result pairs
    the response with the updates sent to the database. *)
Definition try_block (supabaseClient : Client) (req : Request)
  : option (Response * list DbUpdate) :=
  parsed ← req_json req;
  '(site_id, amount) ← destructure parsed;
  if negb (truthy site_id) || is_undefined amount then
    Some (respond 400 (error_body "Site ID and amount are required"), [])
  else
    (* past the check both are defined *)
    site_id ← site_id;
    amount ← amount;
    match select_funds supabaseClient site_id with
    | Err message =>
        Some (respond 500 (error_body ("Error fetching site: " ++ message)), [])
    | Ok siteData =>
        let currentFunds := js_or (siteData !! "funds") (JNum 0) in
        let newFunds := js_add currentFunds amount in
        match update_funds supabaseClient site_id newFunds with
        | Err message =>
            Some (respond 500
                    (error_body ("Error updating site funds: " ++ message)),
                  [(site_id, newFunds)])
        | Ok data =>
            Some (respond 200
                    {[ "success" := JBool true;
                       "data" := data;
                       "previous_funds" := currentFunds;
                       "new_funds" := newFunds ]},
                  [(site_id, newFunds)])
        end
    end.

Definition handler (supabaseClient : Client) (req : Request)
  : Response * list DbUpdate :=
  if String.eqb (req_method req) "OPTIONS" then
    ({| res_status := 200; res_body := None |}, [])
  else
    match try_block supabaseClient req with
    | Some r => r
    | None => (respond 500 (error_body "Unexpected error occurred"), [])
    end.

(** *** The vocabulary of the endpoint's contract *)

(** A property of the response body, [undefined] when the response has no
    body or the body has no such property. *)
Definition body_field (r : Response) (k : string) : jsval :=
  match res_body r with
  | Some (JObj o) => o !! k
  | _ => None
  end.

Definition has_error_body (r : Response) : Prop :=
  exists message, res_body r = Some (JObj (error_body message)).

(** A field of the request as the client sent it: [undefined] when the body
    is not a JSON object or has no such member. *)
Definition request_field (req : Request) (k : string) : jsval :=
  match req_json req with
  | Some (JObj o) => o !! k
  | _ => None
  end.

(** The request lacks an input: the handler's own test. *)
Definition input_missing (req : Request) : bool :=
  negb (truthy (request_field req "site_id"))
  || is_undefined (request_field req "amount").







(** Whether the body can be read at all: [req.json()] resolves, and to a
    value that can be destructured. *)
Definition body_readable (req : Request) : bool :=
  match req_json req with
  | Some JNull | None => false
  | Some _ => true
  end.

(** *** Sample inputs *)

(** A client whose read returns a row with a null [funds] and whose write
    succeeds, and a well-formed request to it. *)
Definition null_funds_client : Client :=
  {| select_funds := fun _ => Ok {[ "funds" := JNull ]};
     update_funds := fun _ _ => Ok (JArr []) |}.

Definition add_five : Request :=
  {| req_method := "POST";
     req_json := Some (JObj {[ "site_id" := JStr "s1"; "amount" := JNum 5 ]}) |}.

(** A request whose body is not JSON. *)
Definition not_json : Request :=
  {| req_method := "POST"; req_json := None |}.

End IncrementFunds.

(* ===================================================================== *)
(** ** The role gate *)
(* ===================================================================== *)

Module Middleware.

(** [UserRole] is a string enumeration of lib/types; a role is its string
    value. *)
Definition UserRole : Type := string.

Record User := { role : UserRole }.

(** The request, by the one property the gate reads: [req.user], absent
    when no authenticated user is attached. *)
Record Request := { user : option User }.

(** What the middleware does to its arguments, in order. *)
Inductive Effect : Type :=
| ResStatus (code : Z)
| ResJson (body : object)
| CallNext.

Definition checkRole (allowedRoles : list UserRole) (req : Request)
  : list Effect :=
  match user req with
  | None => [ResStatus 401; ResJson {[ "error" := JStr "Unauthorized" ]}]
  | Some u =>
      if negb (includes allowedRoles (role u)) then
        [ResStatus 403; ResJson {[ "error" := JStr "Forbidden" ]}]
      else
        [CallNext]
  end.

(** The status the response was sent with, if one was sent. *)
Definition responded_with (code : Z) (effects : list Effect) : Prop :=
  exists body, effects = [ResStatus code; ResJson body].

Definition calls_next (effects : list Effect) : Prop := In CallNext effects.

Definition sends_response (effects : list Effect) : Prop :=
  exists e, In e effects /\ e <> CallNext.

End Middleware.

(* ===================================================================== *)
(** ** The lists handed to the site detail view (Expenses page) *)
(* ===================================================================== *)

Module SiteDetail.

Import Expenses.

(** [record.siteId === selectedSiteId], where [selectedSiteId] is a string
    or [null]. *)
Definition same_site (siteId : string) (selectedSiteId : option string)
  : bool :=
  match selectedSiteId with
  | Some selected => String.eqb siteId selected
  | None => false
  end.

Definition siteExpenses (expenses : list Expense)
    (selectedSiteId : option string) : list Expense :=
  List.filter (fun expense => same_site (expense_siteId expense) selectedSiteId)
              expenses.

Definition siteAdvances (advances : list Advance)
    (selectedSiteId : option string) : list Advance :=
  List.filter (fun advance => same_site (advance_siteId advance) selectedSiteId)
              advances.

Definition siteFunds (fundsReceived : list FundsReceived)
    (selectedSiteId : option string) : list FundsReceived :=
  List.filter (fun fund => same_site (funds_siteId fund) selectedSiteId)
              fundsReceived.

Definition siteInvoices (invoices : list Invoice)
    (selectedSiteId : option string) : list Invoice :=
  List.filter (fun invoice => same_site (invoice_siteId invoice) selectedSiteId)
              invoices.

(** [fetchSiteInvoices]: it sets the invoices of the page to the empty list
    and returns; the query that follows in the source is commented out.
    The result is the new value of the state. *)
Definition fetchSiteInvoices (siteId : string) : list Invoice := [].

(** Amounts are non-negative, as the data model has them. *)
Definition amounts_nonneg {A} (amount : A -> Z) (l : list A) : Prop :=
  Forall (fun x => 0 <= amount x) l.

End SiteDetail.

(* ===================================================================== *)
(** ** The advance form *)
(* ===================================================================== *)

Module AdvanceForm.

Import Expenses.

(** The values the form hands to [handleSubmit] once the schema accepted
    them; [remarks] is optional.  The recipient type is the string value of
    its enumeration. *)
Record FormValues := {
  values_date : Invoices.JsDate;
  values_recipientType : string;
  values_recipientName : string;
  values_purpose : AdvancePurpose;
  values_amount : Z;
  values_remarks : option string
}.

(** The row [handleSubmit] builds. *)
Record AdvanceData := {
  site_id : string;
  date : Invoices.JsDate;
  recipient_name : string;
  recipient_type : string;
  purpose : AdvancePurpose;
  amount : Z;
  remarks : string;
  created_by : option string;
  status : string
}.

(** What [handleSubmit] does, in order: the state setter, the insert into
    [advances], the toasts and the two callbacks of the component.  Console
    output is left out. *)
Inductive Effect : Type :=
| SetIsSubmitting (flag : bool)
| Insert (row : AdvanceData)
| ToastSuccess (message : string)
| ToastError (message : string)
| OnSubmit (advance : AdvanceData)
| OnClose.

(** [values.remarks || ""]. *)
Definition remarks_or_empty (remarks : option string) : string :=
  match remarks with
  | Some s => s
  | None => EmptyString
  end.

(** [isSubmitting] is the flag as the component last rendered it, [siteId]
    the property of the form, [user_id] is [user?.id], and [insert_error] is
    the [error] the insert resolves or rejects with, [None] when it
    succeeded.  The
    [return] of the guard sits inside the [try], so the [finally] block runs
    after it as after every other path. *)
Definition handleSubmit (isSubmitting : bool) (siteId : string)
    (user_id : option string) (insert_error : option string)
    (values : FormValues) : list Effect :=
  (if isSubmitting then []
   else
     let advanceData :=
       {| site_id := siteId;
          date := values_date values;
          recipient_name := values_recipientName values;
          recipient_type := values_recipientType values;
          purpose := values_purpose values;
          amount := values_amount values;
          remarks := remarks_or_empty (values_remarks values);
          created_by := user_id;
          status := "pending" |} in
     [SetIsSubmitting true; Insert advanceData]
     ++ match insert_error with
        | Some error => [ToastError "Failed to submit advance"]
        | None =>
            [ToastSuccess "Advance submitted successfully";
             OnSubmit advanceData;
             OnClose]
        end)
  ++ [SetIsSubmitting false].

End AdvanceForm.

(* ===================================================================== *)
(** ** Method calls on JavaScript values *)
(* ===================================================================== *)

Module JSMethods.

(** [s.includes(t)] on strings: [t] occurs somewhere in [s]. *)
Fixpoint str_includes (s t : string) : bool :=
  String.prefix t s
  || match s with
     | EmptyString => false
     | String _ s' => str_includes s' t
     end.

(** [a === b].  Values carry no identity here, so an array or an object is
    taken to differ from every value; that is what JavaScript answers
    whenever one of the two sides is a primitive. *)
Definition strict_eq (a b : jsval) : bool :=
  match a, b with
  | None, None => true
  | Some JNull, Some JNull => true
  | Some (JBool x), Some (JBool y) => Bool.eqb x y
  | Some (JNum x), Some (JNum y) => x =? y
  | Some (JStr x), Some (JStr y) => String.eqb x y
  | _, _ => false
  end.

Definition is_string (v : jsval) : Prop := exists s, v = Some (JStr s).

Definition is_primitive (v : jsval) : bool :=
  match v with
  | Some (JArr _) | Some (JObj _) => false
  | _ => true
  end.

(** [v.includes(term)] for a string [term]: a substring test on a string,
    an element test on an array, a TypeError ([None]) on anything else. *)
Definition call_includes (v : jsval) (term : string) : option bool :=
  match v with
  | Some (JStr s) => Some (str_includes s term)
  | Some (JArr l) => Some (existsb (fun x => strict_eq_str (Some x) term) l)
  | _ => None
  end.

(** [arr.filter(p)] for a callback that may throw: the elements are tested
    in order and the first exception ([None]) aborts the call. *)
Fixpoint filter_throwing {A} (p : A -> option bool) (l : list A)
  : option (list A) :=
  match l with
  | [] => Some []
  | x :: l' =>
      keep ← p x;
      rest ← filter_throwing p l';
      Some (if (keep : bool) then x :: rest else rest)
  end.

Section Locale.

(** [String.prototype.toLowerCase] is a parameter. *)
Variable toLowerCase : string -> string.

(** [v.toLowerCase()]: a TypeError ([None]) unless [v] is a string. *)
Definition call_toLowerCase (v : jsval) : option string :=
  match v with
  | Some (JStr s) => Some (toLowerCase s)
  | _ => None
  end.

(** [v.toLowerCase().includes(term.toLowerCase())]. *)
Definition lower_includes (v : jsval) (term : string) : option bool :=
  lowered ← call_toLowerCase v;
  Some (str_includes lowered (toLowerCase term)).

End Locale.

(** An awaited database call: the promise rejects with an error, or it
    resolves with an [error], or it resolves without one. *)
Inductive Awaited : Type :=
| Threw (message : string)
| Failed (message : string)
| Succeeded.

(** [v || undefined]. *)
Definition js_or_undefined (v : jsval) : jsval :=
  if truthy v then v else undefined.

End JSMethods.

(* ===================================================================== *)
(** ** Search and payment on the Invoices page *)
(* ===================================================================== *)

Module InvoicesPage.

Import Invoices JSMethods.

Record Toast := {
  title : string;
  description : string;
  destructive : bool
}.

Record PageState := {
  invoices : list Invoice;
  isViewDialogOpen : bool
}.

(** [{ ...inv, paymentStatus: v }]. *)
Definition with_paymentStatus (v : jsval) (inv : Invoice) : Invoice :=
  {| id := id inv;
     date := date inv;
     partyId := partyId inv;
     partyName := partyName inv;
     material := material inv;
     quantity := quantity inv;
     rate := rate inv;
     gstPercentage := gstPercentage inv;
     grossAmount := grossAmount inv;
     netAmount := netAmount inv;
     materialItems := materialItems inv;
     bankDetails := bankDetails inv;
     billUrl := billUrl inv;
     invoiceImageUrl := invoiceImageUrl inv;
     paymentStatus := v;
     createdBy := createdBy inv;
     createdAt := createdAt inv;
     approverType := approverType inv;
     siteId := siteId inv;
     status := status inv;
     vendorName := vendorName inv;
     invoiceNumber := invoiceNumber inv;
     amount := amount inv |}.

Section Page.

Variable toLowerCase : string -> string.

(** [PaymentStatus.PAID], a member of an enumeration of lib/types, and
    [Number.prototype.toLocaleString] are parameters. *)
Variable PAID : json.
Variable toLocaleString : Z -> string.

(** The callback of [filteredInvoices]; [||] stops at the first operand
    that is true. *)
Definition matches_search (searchTerm : string) (invoice : Invoice)
  : option bool :=
  byParty ← lower_includes toLowerCase (partyName invoice) searchTerm;
  if (byParty : bool) then Some true
  else
    byMaterial ← lower_includes toLowerCase (material invoice) searchTerm;
    if (byMaterial : bool) then Some true
    else call_includes (id invoice) searchTerm.

Definition filteredInvoices (invoices : list Invoice) (searchTerm : string)
  : option (list Invoice) :=
  filter_throwing (matches_search searchTerm) invoices.

(** [update] is what the update of [payment_status] resolves to. *)
Definition handleMakePayment (update : Awaited) (st : PageState)
    (invoice : Invoice) : PageState * list Toast :=
  match update with
  | Threw _ =>
      (st, [{| title := "Error";
               description := "Failed to process payment. Please try again.";
               destructive := true |}])
  | Failed message =>
      (st, [{| title := "Payment Failed";
               description := message;
               destructive := true |}])
  | Succeeded =>
      let updatedInvoices :=
        map (fun inv =>
               if strict_eq (id inv) (id invoice)
               then with_paymentStatus (Some PAID) inv
               else inv)
            (invoices st) in
      ({| invoices := updatedInvoices; isViewDialogOpen := false |},
       [{| title := "Payment Successful";
           description :=
             "Payment of ₹" ++ toLocaleString (netAmount invoice)
             ++ " has been processed successfully.";
           destructive := false |}])
  end.

End Page.

(** *** Sample inputs *)

Definition pending_invoice : Invoice :=
  {| id := Some (JStr "inv-1"); date := None; partyId := None;
     partyName := Some (JStr "Acme"); material := Some (JStr "Cement");
     quantity := 0; rate := 0; gstPercentage := 0; grossAmount := 0;
     netAmount := 1500; materialItems := JArr []; bankDetails := JObj ∅;
     billUrl := JStr EmptyString; invoiceImageUrl := JStr EmptyString;
     paymentStatus := Some (JStr "pending"); createdBy := JStr EmptyString;
     createdAt := None; approverType := JStr "ho"; siteId := None;
     status := Some (JStr "pending"); vendorName := Some (JStr "Acme");
     invoiceNumber := Some (JStr "inv-1"); amount := 1500 |}.

End InvoicesPage.

(* ===================================================================== *)
(** ** Site list, completion and added funds (Expenses page) *)
(* ===================================================================== *)

Module SitesPage.

Import JSMethods.

(** A site of the page state, by the fields the functions below read or
    write. *)
Record Site := {
  id : jsval;
  name : jsval;
  jobName : jsval;
  posNo : jsval;
  supervisorId : jsval;
  isCompleted : jsval;
  completionDate : option Invoices.JsDate;
  funds : json
}.

Record FundsReceived := {
  fund_id : jsval;
  fund_siteId : jsval;
  fund_date : Invoices.JsDate;
  fund_amount : Z;
  fund_reference : jsval;
  fund_method : jsval;
  fund_createdAt : Invoices.JsDate
}.

(** The argument of [handleAddFunds]; [newFund_date] is [None] when
    [newFund.date] is not a [Date]. *)
Record NewFund := {
  newFund_siteId : jsval;
  newFund_date : option Invoices.JsDate;
  newFund_amount : jsval;
  newFund_reference : jsval;
  newFund_method : jsval
}.

(** The row [handleAddFunds] inserts. *)
Record FundsData := {
  site_id : string;
  date : string;
  amount : jsval;
  reference : json;
  method : json
}.

Record PageState := {
  sites : list Site;
  fundsReceived : list FundsReceived;
  selectedSiteId : option string
}.

(** What the handlers do besides setting state, in order. *)
Inductive Effect : Type :=
| InsertFunds (row : FundsData)
| UpdateSiteFunds (siteId : string) (funds : json)
| UpdateSiteCompleted (siteId : string) (completion_date : string)
| ToastSuccess (message : string)
| ToastError (message : string)
| FetchSites
| FetchSiteFundsReceived (siteId : string).

(** What the insert into [funds_received] resolves to; [data] may be
    [null]. *)
Inductive Inserted : Type :=
| InsertThrew (message : string)
| InsertFailed (message : string)
| InsertOk (data : option object).

(** [{ ...site, isCompleted: true, completionDate }]. *)
Definition completed (completionDate : Invoices.JsDate) (site : Site) : Site :=
  {| id := id site;
     name := name site;
     jobName := jobName site;
     posNo := posNo site;
     supervisorId := supervisorId site;
     isCompleted := Some (JBool true);
     completionDate := Some completionDate;
     funds := funds site |}.

(** [{ ...site, funds: updatedFunds }]. *)
Definition with_funds (updatedFunds : json) (site : Site) : Site :=
  {| id := id site;
     name := name site;
     jobName := jobName site;
     posNo := posNo site;
     supervisorId := supervisorId site;
     isCompleted := isCompleted site;
     completionDate := completionDate site;
     funds := updatedFunds |}.

(** A string or [null] used as a condition. *)
Definition selected (v : option string) : bool :=
  match v with
  | Some s => negb (String.eqb s EmptyString)
  | None => false
  end.

Section Page.

(** Built-ins taken as parameters: [toLowerCase], [Number(v)],
    [new Date(v)], [toISOString] on a valid date, the current time, and the
    message of the RangeError that [toISOString] throws on an invalid
    date. *)
Variable toLowerCase : string -> string.
Variable Number_ : jsval -> Z.
Variable Date_new : jsval -> Invoices.JsDate.
Variable toISOString : Z -> string.
Variable now : Z.
Variable RangeError_message : string.

Definition matchesSearch (searchTerm : string) (site : Site) : option bool :=
  byName ← lower_includes toLowerCase (name site) searchTerm;
  if (byName : bool) then Some true
  else
    byJob ← lower_includes toLowerCase (jobName site) searchTerm;
    if (byJob : bool) then Some true
    else lower_includes toLowerCase (posNo site) searchTerm.

Definition matchesSupervisor (selectedSupervisorId : option string)
    (site : Site) : bool :=
  match selectedSupervisorId with
  | Some supervisor =>
      if selected selectedSupervisorId
      then strict_eq_str (supervisorId site) supervisor
      else true
  | None => true
  end.

(** The truth value of [matchesStatus]. *)
Definition matchesStatus (filterStatus : string) (site : Site) : bool :=
  if String.eqb filterStatus "all" then true
  else if String.eqb filterStatus "active" then
    negb (truthy (isCompleted site))
  else if String.eqb filterStatus "completed" then
    truthy (isCompleted site)
  else true.

Definition filteredSites (sites : list Site) (searchTerm : string)
    (selectedSupervisorId : option string) (filterStatus : string)
  : option (list Site) :=
  filter_throwing
    (fun site =>
       bySearch ← matchesSearch searchTerm site;
       Some ((bySearch : bool)
             && matchesSupervisor selectedSupervisorId site
             && matchesStatus filterStatus site))
    sites.

(** [completionDate.toISOString()] throws on an invalid date, before the
    update is sent. *)
Definition handleCompleteSite (update : Awaited) (sites : list Site)
    (siteId : string) (completionDate : Invoices.JsDate)
  : list Site * list Effect :=
  let failed message :=
    ToastError ("Failed to mark site as completed: " ++ message) in
  match completionDate with
  | None => (sites, [failed RangeError_message])
  | Some time =>
      let sent := UpdateSiteCompleted siteId (toISOString time) in
      match update with
      | Threw message => (sites, [sent; failed message])
      | Failed message => (sites, [sent; failed message])
      | Succeeded =>
          (map (fun site =>
                  if strict_eq_str (id site) siteId
                  then completed completionDate site
                  else site)
               sites,
           [sent; ToastSuccess "Site marked as completed"])
      end
  end.

(** [(sites.find(site => site.id === selectedSiteId)?.funds || 0)
     + Number(amount)]. *)
Definition updatedFunds (sites : list Site) (selectedSiteId : string)
    (amount : Z) : json :=
  js_add
    (js_or (funds <$> find (fun site => strict_eq_str (id site) selectedSiteId)
                           sites)
           (JNum 0))
    (JNum amount).

Definition handleAddFunds (inserted : Inserted) (update : Awaited)
    (st : PageState) (newFund : NewFund) : PageState * list Effect :=
  let failed message :=
    ToastError ("Failed to add funds received: " ++ message) in
  match selectedSiteId st with
  | Some selectedSite =>
      if negb (truthy (newFund_siteId newFund))
         || negb (selected (selectedSiteId st))
      then (st, [ToastError "No site selected for funds received"])
      else
        match newFund_date newFund with
        | Some None => (st, [failed RangeError_message])
        | date_given =>
            let fundsData :=
              {| site_id := selectedSite;
                 date := match date_given with
                         | Some (Some time) => toISOString time
                         | _ => toISOString now
                         end;
                 amount := newFund_amount newFund;
                 reference := js_or (newFund_reference newFund) JNull;
                 method := js_or (newFund_method newFund) JNull |} in
            match inserted with
            | InsertThrew message => (st, [InsertFunds fundsData; failed message])
            | InsertFailed message => (st, [InsertFunds fundsData; failed message])
            | InsertOk None => (st, [InsertFunds fundsData])
            | InsertOk (Some data) =>
                let fundWithId :=
                  {| fund_id := data !! "id";
                     fund_siteId := data !! "site_id";
                     fund_date := Date_new (data !! "date");
                     fund_amount := Number_ (data !! "amount");
                     fund_reference := js_or_undefined (data !! "reference");
                     fund_method := js_or_undefined (data !! "method");
                     fund_createdAt := Date_new (data !! "created_at") |} in
                let added :=
                  {| sites := sites st;
                     fundsReceived := fundWithId :: fundsReceived st;
                     selectedSiteId := selectedSiteId st |} in
                let newFunds :=
                  updatedFunds (sites st) selectedSite (fund_amount fundWithId) in
                let sent :=
                  [InsertFunds fundsData;
                   UpdateSiteFunds selectedSite newFunds] in
                let refreshed :=
                  [ToastSuccess "Funds received recorded successfully";
                   FetchSites;
                   FetchSiteFundsReceived selectedSite] in
                match update with
                | Threw message => (added, sent ++ [failed message])
                | Failed _ => (added, sent ++ refreshed)
                | Succeeded =>
                    ({| sites :=
                          map (fun site =>
                                 if strict_eq_str (id site) selectedSite
                                 then with_funds newFunds site
                                 else site)
                              (sites st);
                        fundsReceived := fundWithId :: fundsReceived st;
                        selectedSiteId := selectedSiteId st |},
                     sent ++ refreshed)
                end
            end
        end
  | None => (st, [ToastError "No site selected for funds received"])
  end.

End Page.

(** The premises under which [handleAddFunds] gets as far as the insert: a
    site is selected, the new record names a site, and its date, when it is
    a date at all, is valid. *)
Definition can_insert (st : PageState) (newFund : NewFund)
    (selectedSite : string) : Prop :=
  selectedSiteId st = Some selectedSite
  /\ selectedSite <> EmptyString
  /\ truthy (newFund_siteId newFund) = true
  /\ newFund_date newFund <> Some None.

(** *** Sample inputs *)

Definition tower : Site :=
  {| id := Some (JStr "s1"); name := Some (JStr "Tower");
     jobName := Some (JStr "J-1"); posNo := Some (JStr "P-1");
     supervisorId := None; isCompleted := Some (JBool false);
     completionDate := None; funds := JNum 1000 |}.

Definition unnamed : Site :=
  {| id := Some (JStr "s2"); name := Some JNull;
     jobName := Some (JStr "J-2"); posNo := Some (JStr "P-2");
     supervisorId := None; isCompleted := Some (JBool false);
     completionDate := None; funds := JNum 0 |}.

Definition tower_page : PageState :=
  {| sites := [tower]; fundsReceived := []; selectedSiteId := Some "s1"%string |}.

Definition two_hundred : NewFund :=
  {| newFund_siteId := Some (JStr "s1"); newFund_date := None;
     newFund_amount := Some (JNum 200); newFund_reference := None;
     newFund_method := None |}.

Definition two_hundred_row : object :=
  {[ "id" := JStr "f1"; "site_id" := JStr "s1"; "amount" := JNum 200 ]}.

(** [Number] on the numbers of the model. *)
Definition number_of (v : jsval) : Z :=
  match v with
  | Some (JNum z) => z
  | _ => 0
  end.

End SitesPage.

(* ===================================================================== *)
(** ** The balance engine on binary64 numbers *)
(* ===================================================================== *)

Module Doubles.

Import PrimFloat.

Local Open Scope float_scope.
Local Set Warnings "-inexact-float".

(** The records of the engine with the amounts as JavaScript has them:
    IEEE 754 binary64 numbers, added and subtracted with rounding to
    nearest. *)
Record Expense := { expense_siteId : string; expense_amount : float }.

Record Advance := {
  advance_siteId : string;
  advance_amount : float;
  advance_purpose : Expenses.AdvancePurpose
}.

Record FundsReceived := { funds_siteId : string; funds_amount : float }.

Record Invoice := {
  invoice_siteId : string;
  invoice_netAmount : float;
  invoice_payment_by : jsval
}.

Record BalanceSummary := {
  fundsReceived : float;
  totalExpenditure : float;
  totalAdvances : float;
  debitsToWorker : float;
  invoicesPaid : float;
  pendingInvoices : float;
  totalBalance : float
}.

Definition zeroSummary : BalanceSummary :=
  {| fundsReceived := 0;
     totalExpenditure := 0;
     totalAdvances := 0;
     debitsToWorker := 0;
     invoicesPaid := 0;
     pendingInvoices := 0;
     totalBalance := 0 |}.

Definition calculateSiteFinancials
    (sites : list Expenses.Site) (expenses : list Expense)
    (advances : list Advance) (fundsReceived : list FundsReceived)
    (invoices : list Invoice) (siteId : option string) : BalanceSummary :=
  match siteId with
  | Some sid =>
      if negb (String.eqb sid EmptyString) then
        match find (fun s => String.eqb (Expenses.site_id s) sid) sites with
        | Some site =>
            let totalExpenses :=
              fold_left (fun sum expense => sum + expense_amount expense)
                        expenses 0 in
            let totalFunds :=
              fold_left (fun sum fund => sum + funds_amount fund)
                        fundsReceived 0 in
            let totalAdvances :=
              fold_left (fun sum advance =>
                           if negb (includes Expenses.DEBIT_ADVANCE_PURPOSES
                                             (advance_purpose advance))
                           then sum + advance_amount advance
                           else sum)
                        advances 0 in
            let totalDebitToWorker :=
              fold_left (fun sum advance =>
                           if includes Expenses.DEBIT_ADVANCE_PURPOSES
                                       (advance_purpose advance)
                           then sum + advance_amount advance
                           else sum)
                        advances 0 in
            let supervisorInvoiceTotal :=
              fold_left (fun sum invoice => sum + invoice_netAmount invoice)
                        (List.filter
                           (fun invoice =>
                              strict_eq_str (invoice_payment_by invoice)
                                            "supervisor")
                           invoices)
                        0 in
            let totalBalance :=
              totalFunds - totalExpenses - totalAdvances
              - supervisorInvoiceTotal in
            {| fundsReceived := totalFunds;
               totalExpenditure := totalExpenses;
               totalAdvances := totalAdvances;
               debitsToWorker := totalDebitToWorker;
               invoicesPaid := supervisorInvoiceTotal;
               pendingInvoices := 0;
               totalBalance := totalBalance |}
        | None => zeroSummary
        end
      else zeroSummary
  | None => zeroSummary
  end.

Definition is_debit (a : Advance) : bool :=
  includes Expenses.DEBIT_ADVANCE_PURPOSES (advance_purpose a).

(** The sum of [amount] over a list, added up from the left starting at 0
    as every [reduce] of the engine does. *)
Definition total {A} (amount : A -> float) (l : list A) : float :=
  fold_left (fun sum x => sum + amount x) l 0.

(** The partition claim as the specification states it, for a found site:
    the two buckets add up to the sum over all advances. *)
Definition partition_sum_as_stated (sites : list Expenses.Site)
    (advances : list Advance) (siteId : option string) : Prop :=
  Expenses.site_found sites siteId = true ->
  let summary := calculateSiteFinancials sites [] advances [] [] siteId in
  totalAdvances summary + debitsToWorker summary
  = total advance_amount advances.

(** *** Sample inputs *)

Definition rupees_and_paise : list Advance :=
  [ {| advance_siteId := "s1"; advance_amount := 1000.1;
       advance_purpose := Expenses.ADVANCE |};
    {| advance_siteId := "s1"; advance_amount := 2000.2;
       advance_purpose := Expenses.TOOLS |};
    {| advance_siteId := "s1"; advance_amount := 250.75;
       advance_purpose := Expenses.TOOLS |} ].

Definition tenths : list Expense :=
  [ {| expense_siteId := "s1"; expense_amount := 0.1 |};
    {| expense_siteId := "s1"; expense_amount := 0.2 |};
    {| expense_siteId := "s1"; expense_amount := 0.3 |} ].

End Doubles.

(* ===================================================================== *)
(** ** Whole amounts and the range in which their sums are exact *)
(* ===================================================================== *)

Module WholeAmounts.

(** Binary64 represents every integer up to 2^53 in absolute value, and a
    sum or difference of two such integers whose result is again in that
    range is computed without rounding. *)
Definition safe_limit : Z := 2 ^ 53.

(** The amounts of a collection are whole numbers whose absolute values add
    up to no more than the limit: then every partial sum, in any order and
    over any part of the collection, stays in the exact range. *)
Definition sums_exactly {A} (amount : A -> Z) (l : list A) : Prop :=
  Expenses.sum_all (fun x => Z.abs (amount x)) l <= safe_limit.

End WholeAmounts.

(* ===================================================================== *)
(** ** The coalescing of the stored funds, as first stated *)
(* ===================================================================== *)

Module IncrementFundsStated.

Import IncrementFunds.



End IncrementFundsStated.

(* ===================================================================== *)
(** ** Properties of the balance engine *)
(* ===================================================================== *)

Module ExpensesFacts.

Import Expenses.

Section Reducers.

Context {A : Type} (p : A -> bool) (f : A -> Z).

(** A conditional [reduce] with accumulator [a] adds to [a] the sum of [f]
    over the elements that pass the test. *)
Lemma reduce_cond (l : list A) (a : Z) :
  fold_left (fun sum x => if p x then sum + f x else sum) l a
  = a + sum_over p f l.
Proof.
  revert a. induction l as [|x l IH]; intros a; simpl.
  - lia.
  - rewrite IH. destruct (p x); lia.
Qed.

Lemma reduce_all (l : list A) (a : Z) :
  fold_left (fun sum x => sum + f x) l a = a + sum_all f l.
Proof.
  revert a. induction l as [|x l IH]; intros a; unfold sum_all in *; simpl.
  - lia.
  - rewrite IH. lia.
Qed.

Lemma reduce_filter (l : list A) (a : Z) :
  fold_left (fun sum x => sum + f x) (List.filter p l) a
  = a + sum_over p f l.
Proof.
  revert a. induction l as [|x l IH]; intros a; simpl.
  - lia.
  - destruct (p x); simpl; rewrite IH; lia.
Qed.

Lemma sum_over_app (l1 l2 : list A) :
  sum_over p f (l1 ++ l2) = sum_over p f l1 + sum_over p f l2.
Proof.
  induction l1 as [|x l1 IH]; simpl; [reflexivity | rewrite IH; lia].
Qed.

(** Removing one element changes the sum by that element's share. *)
Lemma sum_over_insert (l1 l2 : list A) (x : A) :
  sum_over p f (l1 ++ x :: l2)
  = sum_over p f (l1 ++ l2) + (if p x then f x else 0).
Proof. rewrite !sum_over_app. simpl. lia. Qed.

(** The elements that pass and those that fail split the whole sum. *)
Lemma sum_over_partition (l : list A) :
  sum_over (fun x => negb (p x)) f l + sum_over p f l = sum_all f l.
Proof.
  unfold sum_all. induction l as [|x l IH]; simpl; [reflexivity|].
  destruct (p x); simpl; lia.
Qed.

Lemma sum_over_filter (q : A -> bool) (l : list A) :
  sum_over p f (List.filter q l) = sum_over (fun x => q x && p x) f l.
Proof.
  induction l as [|x l IH]; simpl; [reflexivity|].
  destruct (q x); simpl; rewrite IH; reflexivity.
Qed.

End Reducers.

Lemma sum_over_ext {A} (p q : A -> bool) (f : A -> Z) (l : list A) :
  (forall x, p x = q x) -> sum_over p f l = sum_over q f l.
Proof.
  intros E. induction l as [|x l IH]; simpl; [reflexivity|].
  rewrite E, IH. reflexivity.
Qed.

Lemma find_existsb {A} (q : A -> bool) (l : list A) :
  existsb q l = true -> exists x, find q l = Some x.
Proof.
  induction l as [|x l IH]; simpl; [discriminate|].
  destruct (q x); [eauto | exact IH].
Qed.

Lemma find_not_existsb {A} (q : A -> bool) (l : list A) :
  existsb q l = false -> find q l = None.
Proof.
  induction l as [|x l IH]; simpl; [reflexivity|].
  destruct (q x); [discriminate | exact IH].
Qed.

Lemma calc_found sites expenses advances funds invoices siteId :
  site_found sites siteId = true ->
  calculateSiteFinancials sites expenses advances funds invoices siteId
  = computed expenses advances funds invoices.
Proof.
  unfold site_found, calculateSiteFinancials.
  destruct siteId as [sid|]; [|discriminate].
  destruct (negb (String.eqb sid EmptyString)); simpl; [|discriminate].
  intros H. apply find_existsb in H as [site ->].
  unfold computed.
  rewrite reduce_filter, !reduce_cond, !reduce_all.
  f_equal; unfold is_debit, paid_by_supervisor; lia.
Qed.

Lemma calc_not_found sites expenses advances funds invoices siteId :
  site_found sites siteId = false ->
  calculateSiteFinancials sites expenses advances funds invoices siteId
  = zeroSummary.
Proof.
  unfold site_found, calculateSiteFinancials.
  destruct siteId as [sid|]; [|reflexivity].
  destruct (negb (String.eqb sid EmptyString)); simpl; [|reflexivity].
  intros H. rewrite (find_not_existsb _ _ H). reflexivity.
Qed.



Lemma paid_by_supervisor_spec (i : Invoice) :
  paid_by_supervisor i = true
  <-> invoice_payment_by i = Some (JStr "supervisor").
Proof.
  unfold paid_by_supervisor, strict_eq_str.
  destruct (invoice_payment_by i) as [[| | |s| |]|]; try (split; discriminate).
  rewrite String.eqb_eq. split; [intros ->; reflexivity | congruence].
Qed.

Lemma absent_site_not_found (sites : list Site) (sid : string) :
  ~ In sid (map site_id sites) ->
  existsb (fun s => String.eqb (site_id s) sid) sites = false.
Proof.
  induction sites as [|s sites IH]; simpl; [reflexivity|].
  intros H. rewrite IH by tauto.
  destruct (String.eqb_spec (site_id s) sid); [tauto | reflexivity].
Qed.

(** C1. Whatever the inputs (and so whenever the target site is found),
    the summary's [totalBalance] is exactly [fundsReceived -
    totalExpenditure - totalAdvances - invoicesPaid]; the debit-type
    advances are not subtracted: dropping every advance with a debit
    purpose from the input leaves [totalBalance] as it was. *)
Theorem totalBalance_formula sites expenses advances funds invoices siteId :
  let summary :=
    calculateSiteFinancials sites expenses advances funds invoices siteId in
  totalBalance summary
  = fundsReceived summary - totalExpenditure summary
    - totalAdvances summary - invoicesPaid summary
  /\ totalBalance
       (calculateSiteFinancials sites expenses
          (List.filter (fun a => negb (is_debit a)) advances)
          funds invoices siteId)
     = totalBalance summary.
Proof.
  destruct (site_found sites siteId) eqn:F.
  - rewrite !(calc_found _ _ _ _ _ _ F). simpl. split; [reflexivity|].
    rewrite sum_over_filter.
    rewrite (sum_over_ext _ (fun a => negb (is_debit a))); [reflexivity|].
    intros a. destruct (is_debit a); reflexivity.
  - rewrite !(calc_not_found _ _ _ _ _ _ F). simpl. split; reflexivity.
Qed.

(** C2. When the site is found, [invoicesPaid] is the sum of [netAmount]
    over exactly the invoices whose [payment_by] is the string
    "supervisor"; an invoice paid by head office ("ho") contributes
    nothing: with or without it, [invoicesPaid] and [totalBalance] are the
    same. *)
Theorem invoicesPaid_supervisor_only
    sites expenses advances funds invoices siteId :
  site_found sites siteId = true ->
  invoicesPaid
    (calculateSiteFinancials sites expenses advances funds invoices siteId)
  = sum_over paid_by_supervisor invoice_netAmount invoices
  /\ (forall i, paid_by_supervisor i = true
                <-> invoice_payment_by i = Some (JStr "supervisor"))
  /\ (forall before ho after,
        invoices = before ++ ho :: after ->
        invoice_payment_by ho = Some (JStr "ho") ->
        let without :=
          calculateSiteFinancials sites expenses advances funds
                                  (before ++ after) siteId in
        let summary :=
          calculateSiteFinancials sites expenses advances funds
                                  invoices siteId in
        invoicesPaid summary = invoicesPaid without
        /\ totalBalance summary = totalBalance without).
Proof.
  intros F. rewrite (calc_found _ _ _ _ _ _ F). simpl.
  split; [reflexivity|]. split; [apply paid_by_supervisor_spec|].
  intros before ho after -> Hho.
  rewrite !(calc_found _ _ _ _ _ _ F). simpl.
  rewrite sum_over_insert.
  assert (paid_by_supervisor ho = false) as ->
    by (unfold paid_by_supervisor; rewrite Hho; reflexivity).
  lia.
Qed.

Lemma invoicesPaid_supervisor_only_witness :
  invoicesPaid
    (calculateSiteFinancials
       [{| site_id := "s1" |}] [] [] []
       [ {| invoice_siteId := "s1"; invoice_netAmount := 1500;
            invoice_payment_by := Some (JStr "supervisor") |};
         {| invoice_siteId := "s1"; invoice_netAmount := 700;
            invoice_payment_by := Some (JStr "ho") |} ]
       (Some "s1"))
  = 1500.
Proof.
  refine (eq_trans
            (proj1 (invoicesPaid_supervisor_only
                      [{| site_id := "s1" |}] [] [] [] _ (Some "s1") _)) _);
    reflexivity.
Defined.

Lemma fold_cond_filter {A B} (step : B -> A -> B) (p : A -> bool)
    (l : list A) (z : B) :
  fold_left (fun acc x => if p x then step acc x else acc) l z
  = fold_left step (List.filter p l) z.
Proof.
  revert z. induction l as [|x l IH]; intros z; simpl; [reflexivity|].
  destruct (p x); simpl; apply IH.
Qed.

Lemma doubles_buckets sites expenses advances funds invoices siteId :
  site_found sites siteId = true ->
  Doubles.debitsToWorker
    (Doubles.calculateSiteFinancials sites expenses advances funds invoices
                                     siteId)
  = Doubles.total Doubles.advance_amount
      (List.filter Doubles.is_debit advances)
  /\ Doubles.totalAdvances
       (Doubles.calculateSiteFinancials sites expenses advances funds
                                        invoices siteId)
     = Doubles.total Doubles.advance_amount
         (List.filter (fun a => negb (Doubles.is_debit a)) advances).
Proof.
  unfold site_found, Doubles.calculateSiteFinancials.
  destruct siteId as [sid|]; [|discriminate].
  destruct (negb (String.eqb sid EmptyString)); simpl; [|discriminate].
  intros H. apply find_existsb in H as [site ->]. simpl.
  unfold Doubles.total. split.
  - apply (fold_cond_filter
             (fun acc a => PrimFloat.add acc (Doubles.advance_amount a))
             Doubles.is_debit).
  - apply (fold_cond_filter
             (fun acc a => PrimFloat.add acc (Doubles.advance_amount a))
             (fun a => negb (Doubles.is_debit a))).
Qed.

Lemma doubles_is_debit_spec (a : Doubles.Advance) :
  Doubles.is_debit a = true
  <-> Doubles.advance_purpose a = SAFETY_SHOES
      \/ Doubles.advance_purpose a = TOOLS
      \/ Doubles.advance_purpose a = OTHER.
Proof.
  unfold Doubles.is_debit, includes, DEBIT_ADVANCE_PURPOSES. simpl.
  rewrite !orb_true_iff, !bool_decide_eq_true.
  intuition (try congruence; try discriminate).
Qed.

Lemma filter_partition_perm {A} (p : A -> bool) (l : list A) :
  Permutation l (List.filter p l ++ List.filter (fun x => negb (p x)) l).
Proof.
  induction l as [|a l IH]; simpl; [constructor|].
  destruct (p a); simpl.
  - constructor. exact IH.
  - apply Permutation_cons_app. exact IH.
Qed.

(** C3, as stated, fails on the numbers of the code.  With an ADVANCE of
    1000.1 and TOOLS advances of 2000.2 and 250.75 the two buckets add up
    to 3251.0499999999997, while the amounts of all advances, added up the
    way the engine adds, give 3251.0500000000002. *)
Lemma partition_sum_inexact :
  ~ Doubles.partition_sum_as_stated
      [{| site_id := "s1" |}] Doubles.rupees_and_paise (Some "s1"%string).
Proof.
  intros H. specialize (H eq_refl). simpl in H.
  apply (f_equal
           (fun x => PrimFloat.ltb x
                       (Doubles.total Doubles.advance_amount
                                      Doubles.rupees_and_paise))) in H.
  vm_compute in H. discriminate H.
Qed.

(** C3, amended.  When the site is found every advance falls into exactly
    one of two buckets, with no overlap and no omission: [debitsToWorker]
    is the sum, added up from the left in the code's binary64 arithmetic,
    over the advances whose purpose is SAFETY_SHOES, TOOLS or OTHER, and
    [totalAdvances] the sum over all the others.  When the amounts are whole
    numbers whose absolute values add up to at most 2^53, so that every
    addition is exact, [totalAdvances + debitsToWorker] is the sum of
    [amount] over all advances. *)
Theorem advances_partition
    sites siteId
    (expenses : list Doubles.Expense) (advances : list Doubles.Advance)
    (funds : list Doubles.FundsReceived) (invoices : list Doubles.Invoice)
    (wholeExpenses : list Expense) (wholeAdvances : list Advance)
    (wholeFunds : list FundsReceived) (wholeInvoices : list Invoice) :
  site_found sites siteId = true ->
  (let summary :=
     Doubles.calculateSiteFinancials sites expenses advances funds invoices
                                     siteId in
   Doubles.debitsToWorker summary
   = Doubles.total Doubles.advance_amount
       (List.filter Doubles.is_debit advances)
   /\ Doubles.totalAdvances summary
      = Doubles.total Doubles.advance_amount
          (List.filter (fun a => negb (Doubles.is_debit a)) advances)
   /\ (forall a, Doubles.is_debit a = true
                 <-> Doubles.advance_purpose a = SAFETY_SHOES
                     \/ Doubles.advance_purpose a = TOOLS
                     \/ Doubles.advance_purpose a = OTHER)
   /\ Permutation advances
        (List.filter Doubles.is_debit advances
         ++ List.filter (fun a => negb (Doubles.is_debit a)) advances))
  /\ (WholeAmounts.sums_exactly advance_amount wholeAdvances ->
      let summary :=
        calculateSiteFinancials sites wholeExpenses wholeAdvances wholeFunds
                                wholeInvoices siteId in
      totalAdvances summary + debitsToWorker summary
      = sum_all advance_amount wholeAdvances
      /\ debitsToWorker summary
         = sum_over is_debit advance_amount wholeAdvances
      /\ totalAdvances summary
         = sum_over (fun a => negb (is_debit a)) advance_amount wholeAdvances).
Proof.
  intros F. split.
  - destruct (doubles_buckets sites expenses advances funds invoices siteId F)
      as [Hd Ha].
    simpl. split; [exact Hd|]. split; [exact Ha|].
    split; [apply doubles_is_debit_spec | apply filter_partition_perm].
  - intros _. rewrite (calc_found _ _ _ _ _ _ F). simpl.
    split; [apply sum_over_partition|]. split; reflexivity.
Qed.

Lemma advances_partition_witness :
  sum_all advance_amount
    [ {| advance_siteId := "s1"; advance_amount := 1000;
         advance_purpose := ADVANCE |};
      {| advance_siteId := "s1"; advance_amount := 300;
         advance_purpose := TOOLS |};
      {| advance_siteId := "s1"; advance_amount := 40;
         advance_purpose := Unlisted "FOOD" |} ]
  = 1040 + 300.
Proof.
  refine (eq_trans
            (eq_sym (proj1 (proj2 (advances_partition
                                     [{| site_id := "s1" |}] (Some "s1")
                                     [] Doubles.rupees_and_paise [] []
                                     [] _ [] [] _) _))) _);
    [reflexivity | unfold WholeAmounts.sums_exactly; vm_compute; discriminate
    | reflexivity].
Defined.

(** C4. The worked scenario: one funds record of 10000, expenses 2000 and
    500, an ADVANCE of 1000 and a TOOLS advance of 300, one supervisor-paid
    invoice of 1500, the target site present. *)
Theorem scenario_summary :
  calculateSiteFinancials
    [{| site_id := "site-1" |}]
    [ {| expense_siteId := "site-1"; expense_amount := 2000 |};
      {| expense_siteId := "site-1"; expense_amount := 500 |} ]
    [ {| advance_siteId := "site-1"; advance_amount := 1000;
         advance_purpose := ADVANCE |};
      {| advance_siteId := "site-1"; advance_amount := 300;
         advance_purpose := TOOLS |} ]
    [ {| funds_siteId := "site-1"; funds_amount := 10000 |} ]
    [ {| invoice_siteId := "site-1"; invoice_netAmount := 1500;
         invoice_payment_by := Some (JStr "supervisor") |} ]
    (Some "site-1")
  = {| fundsReceived := 10000;
       totalExpenditure := 2500;
       totalAdvances := 1000;
       debitsToWorker := 300;
       invoicesPaid := 1500;
       pendingInvoices := 0;
       totalBalance := 5000 |}.
Proof. reflexivity. Qed.

(** C5. For a site id that no site of the list carries, for the empty id
    and for an absent id, every field of the summary is 0, whatever the
    expense, advance, funds and invoice collections hold; the function is
    total, so there is no failure to speak of. *)
Theorem unknown_site_all_zero sites expenses advances funds invoices siteId :
  siteId = None
  \/ siteId = Some EmptyString
  \/ (exists sid, siteId = Some sid /\ ~ In sid (map site_id sites)) ->
  let summary :=
    calculateSiteFinancials sites expenses advances funds invoices siteId in
  fundsReceived summary = 0
  /\ totalExpenditure summary = 0
  /\ totalAdvances summary = 0
  /\ debitsToWorker summary = 0
  /\ invoicesPaid summary = 0
  /\ pendingInvoices summary = 0
  /\ totalBalance summary = 0.
Proof.
  intros H.
  assert (site_found sites siteId = false) as F.
  { destruct H as [->|[->|(sid & -> & H)]]; try reflexivity.
    unfold site_found. rewrite (absent_site_not_found _ _ H).
    apply andb_false_r. }
  rewrite (calc_not_found _ _ _ _ _ _ F). simpl. repeat split.
Qed.

Lemma unknown_site_all_zero_witness :
  totalBalance
    (calculateSiteFinancials
       [{| site_id := "s1" |}]
       [{| expense_siteId := "s2"; expense_amount := 10 |}]
       [] [{| funds_siteId := "s2"; funds_amount := 50 |}] []
       (Some "s2"))
  = 0.
Proof.
  refine (proj2 (proj2 (proj2 (proj2 (proj2 (proj2
            (unknown_site_all_zero
               [{| site_id := "s1" |}] _ _ _ _ (Some "s2") _))))))).
  right. right. exists "s2"%string. split; [reflexivity|].
  simpl. intros [H|[]]. discriminate H.
Defined.



End ExpensesFacts.

(* ===================================================================== *)
(** ** Properties of the role gate *)
(* ===================================================================== *)

Module MiddlewareFacts.

Import Middleware.

Lemma includes_In {A} `{EqDecision A} (arr : list A) (x : A) :
  includes arr x = true <-> In x arr.
Proof.
  unfold includes. rewrite existsb_exists. split.
  - intros (y & Hy & E). apply bool_decide_eq_true in E. subst. exact Hy.
  - intros Hx. exists x. split; [exact Hx|]. apply bool_decide_eq_true.
    reflexivity.
Qed.

(** C8. With no authenticated user on the request the gate answers 401 and
    does not call [next]; with a user whose role is not in the allow-list
    it answers 403 and does not call [next]; otherwise it calls [next] and
    sends no response. *)
Theorem checkRole_gate (allowedRoles : list UserRole) (req : Request) :
  (user req = None ->
   responded_with 401 (checkRole allowedRoles req)
   /\ ~ calls_next (checkRole allowedRoles req))
  /\ (forall u, user req = Some u -> ~ In (role u) allowedRoles ->
      responded_with 403 (checkRole allowedRoles req)
      /\ ~ calls_next (checkRole allowedRoles req))
  /\ (forall u, user req = Some u -> In (role u) allowedRoles ->
      checkRole allowedRoles req = [CallNext]
      /\ calls_next (checkRole allowedRoles req)
      /\ ~ sends_response (checkRole allowedRoles req)).
Proof.
  unfold checkRole, responded_with, calls_next, sends_response.
  split; [|split].
  - intros ->. split; [eauto|]. simpl. intros [H|[H|[]]]; discriminate.
  - intros u -> Hu.
    destruct (includes allowedRoles (role u)) eqn:E.
    + apply includes_In in E. contradiction.
    + simpl. split; [eauto|]. intros [H|[H|[]]]; discriminate.
  - intros u -> Hu. apply includes_In in Hu. rewrite Hu. simpl.
    split; [reflexivity|]. split; [auto|].
    intros (e & [<-|[]] & Hne). contradiction.
Qed.

Lemma checkRole_gate_witness :
  (responded_with 401 (checkRole ["admin"%string] {| user := None |})
   /\ ~ calls_next (checkRole ["admin"%string] {| user := None |}))
  /\ (responded_with 403
        (checkRole ["admin"%string]
                   {| user := Some {| role := "viewer" |} |})
      /\ ~ calls_next
           (checkRole ["admin"%string]
                      {| user := Some {| role := "viewer" |} |}))
  /\ checkRole ["admin"%string] {| user := Some {| role := "admin" |} |}
     = [CallNext].
Proof.
  split; [|split].
  - apply (proj1 (checkRole_gate ["admin"%string] {| user := None |})).
    reflexivity.
  - apply (proj1 (proj2 (checkRole_gate
                           ["admin"%string]
                           {| user := Some {| role := "viewer" |} |}))
             {| role := "viewer" |}); [reflexivity|].
    simpl. intros [H|[]]. discriminate H.
  - apply (proj2 (proj2 (checkRole_gate
                           ["admin"%string]
                           {| user := Some {| role := "admin" |} |}))
             {| role := "admin" |}); [reflexivity|].
    simpl. left. reflexivity.
Defined.

End MiddlewareFacts.

(* ===================================================================== *)
(** ** Properties of the invoice mapping *)
(* ===================================================================== *)

Module InvoicesFacts.

Import Invoices.

Section Mapping.

Variable Number_ : jsval -> Z.
Variable Date_new : jsval -> JsDate.
Variable JSON_parse : string -> option json.

Abbreviation mapInvoice_ := (mapInvoice Number_ Date_new JSON_parse).
Abbreviation mapInvoices_ := (mapInvoices Number_ Date_new JSON_parse).

(** A mapped record takes its [approverType] from the row, "ho" standing in
    for a falsy [approver_type]. *)
Lemma mapInvoice_approverType (row : object) (inv : Invoice) :
  mapInvoice_ row = Some inv ->
  approverType inv = js_or (row !! "approver_type") (JStr "ho").
Proof.
  unfold mapInvoice. intros H.
  destruct (parse_or JSON_parse (row !! "material_items") (JArr []));
    [|discriminate H].
  destruct (parse_or JSON_parse (row !! "bank_details") (JObj ∅));
    [|discriminate H].
  simpl in H. injection H as <-. reflexivity.
Qed.

Lemma js_or_unrecorded (row : object) (fallback : json) :
  approver_unrecorded row ->
  js_or (row !! "approver_type") fallback = fallback.
Proof. intros [-> | ->]; reflexivity. Qed.

Lemma mapInvoice_total (row : object) :
  is_Some (parse_or JSON_parse (row !! "material_items") (JArr [])) ->
  is_Some (parse_or JSON_parse (row !! "bank_details") (JObj ∅)) ->
  is_Some (mapInvoice_ row).
Proof.
  unfold mapInvoice. intros [m ->] [b ->]. simpl. eauto.
Qed.

(** C9. Whenever [mapInvoices] returns, it returns one record per row, in
    order, and the record of a row whose [approver_type] is null or absent
    has [approverType] "ho"; it returns whenever the [material_items] and
    [bank_details] of every row are falsy or parse as JSON. *)
Theorem mapInvoices_approver_defaults_to_ho (data : list object) :
  (forall out, mapInvoices_ data = Some out ->
     length out = length data
     /\ forall (i : nat) row inv,
          data !! i = Some row -> out !! i = Some inv ->
          approver_unrecorded row ->
          approverType inv = JStr "ho")
  /\ ((forall row, In row data ->
         is_Some (parse_or JSON_parse (row !! "material_items") (JArr []))
         /\ is_Some (parse_or JSON_parse (row !! "bank_details") (JObj ∅))) ->
      is_Some (mapInvoices_ data)).
Proof.
  split.
  - intros out H. apply mapM_Some in H. split.
    + symmetry. eapply Forall2_length, H.
    + intros i row inv Hrow Hinv Hun.
      pose proof (Forall2_lookup_lr _ _ _ _ _ _ H Hrow Hinv) as Hmap.
      rewrite (mapInvoice_approverType _ _ Hmap).
      apply js_or_unrecorded, Hun.
  - intros Hparse. apply mapM_is_Some, Forall_forall.
    intros row Hin. apply list_elem_of_In in Hin.
    destruct (Hparse row Hin). simpl. apply mapInvoice_total; assumption.
Qed.

End Mapping.

Lemma mapInvoices_approver_defaults_to_ho_witness :
  approverType
    {| id := Some (JNum 7); date := None; partyId := None;
       partyName := None; material := None; quantity := 0; rate := 0;
       gstPercentage := 0; grossAmount := 0; netAmount := 0;
       materialItems := JArr []; bankDetails := JObj ∅;
       billUrl := JStr EmptyString; invoiceImageUrl := JStr EmptyString;
       paymentStatus := None; createdBy := JStr EmptyString; createdAt := None;
       approverType := JStr "ho"; siteId := None; status := None;
       vendorName := None; invoiceNumber := Some (JNum 7); amount := 0 |}
  = JStr "ho".
Proof.
  refine (proj2 (proj1 (mapInvoices_approver_defaults_to_ho
                          (fun _ => 0) (fun _ => None) (fun _ => None)
                          [ {[ "id" := JNum 7; "approver_type" := JNull ]} ])
                   [_] _)
            0%nat {[ "id" := JNum 7; "approver_type" := JNull ]} _ _ _ _).
  - vm_compute. reflexivity.
  - reflexivity.
  - reflexivity.
  - right. vm_compute. reflexivity.
Defined.

End InvoicesFacts.

(* ===================================================================== *)
(** ** Properties of the increment_funds endpoint *)
(* ===================================================================== *)

Module IncrementFundsFacts.

Import IncrementFunds.

Section Handler.

Variable c : Client.
Variable req : Request.
Hypothesis not_preflight : req_method req <> "OPTIONS"%string.

Lemma handler_try :
  handler c req
  = match try_block c req with
    | Some r => r
    | None => (respond 500 (error_body "Unexpected error occurred"), [])
    end.
Proof.
  unfold handler.
  destruct (String.eqb_spec (req_method req) "OPTIONS"); [contradiction|].
  reflexivity.
Qed.

Lemma handler_unreadable :
  body_readable req = false ->
  handler c req
  = (respond 500 (error_body "Unexpected error occurred"), []).
Proof.
  rewrite handler_try. unfold body_readable, try_block.
  destruct (req_json req) as [[]|]; try discriminate; reflexivity.
Qed.

Lemma destructure_fields (parsed : json) :
  req_json req = Some parsed ->
  parsed <> JNull ->
  destructure parsed
  = Some (request_field req "site_id", request_field req "amount").
Proof.
  unfold request_field. intros -> H.
  destruct parsed; try reflexivity. contradiction.
Qed.

Lemma readable_parsed :
  body_readable req = true ->
  exists parsed, req_json req = Some parsed /\ parsed <> JNull.
Proof.
  unfold body_readable.
  destruct (req_json req) as [[]|]; try discriminate; eauto.
Qed.

Lemma handler_missing :
  body_readable req = true ->
  input_missing req = true ->
  handler c req
  = (respond 400 (error_body "Site ID and amount are required"), []).
Proof.
  intros Hr Hm. apply readable_parsed in Hr as (parsed & Hp & Hn).
  rewrite handler_try. unfold try_block. rewrite Hp. simpl.
  rewrite (destructure_fields _ Hp Hn). simpl.
  unfold input_missing in Hm. rewrite Hm. reflexivity.
Qed.

Lemma fields_readable site_id :
  request_field req "site_id" = Some site_id ->
  body_readable req = true.
Proof.
  unfold request_field, body_readable.
  destruct (req_json req) as [[]|]; try discriminate; reflexivity.
Qed.

(** Past the input check the handler is the read followed by the write. *)
Lemma handler_valid site_id amount :
  input_missing req = false ->
  request_field req "site_id" = Some site_id ->
  request_field req "amount" = Some amount ->
  handler c req
  = match select_funds c site_id with
    | Err message =>
        (respond 500 (error_body ("Error fetching site: " ++ message)), [])
    | Ok siteData =>
        let currentFunds := js_or (siteData !! "funds") (JNum 0) in
        let newFunds := js_add currentFunds amount in
        match update_funds c site_id newFunds with
        | Err message =>
            (respond 500
               (error_body ("Error updating site funds: " ++ message)),
             [(site_id, newFunds)])
        | Ok data =>
            (respond 200
               {[ "success" := JBool true;
                  "data" := data;
                  "previous_funds" := currentFunds;
                  "new_funds" := newFunds ]},
             [(site_id, newFunds)])
        end
    end.
Proof.
  intros Hm Hs Ha.
  destruct (readable_parsed (fields_readable _ Hs)) as (parsed & Hp & Hn).
  rewrite handler_try. unfold try_block. rewrite Hp. simpl.
  rewrite (destructure_fields _ Hp Hn). simpl.
  unfold input_missing in Hm. rewrite Hm, Hs, Ha. simpl.
  destruct (select_funds c site_id) as [m|row]; [reflexivity|].
  simpl. destruct (update_funds c site_id _); reflexivity.
Qed.

End Handler.

Lemma respond_error status message :
  has_error_body (respond status (error_body message)).
Proof. exists message. reflexivity. Qed.


Lemma js_or_funds_number (f : Z) : js_or (Some (JNum f)) (JNum 0) = JNum f.
Proof.
  unfold js_or, truthy. destruct (Z.eqb_spec f 0); subst; reflexivity.
Qed.







End IncrementFundsFacts.

(* ===================================================================== *)
(** ** Further properties of the balance engine *)
(* ===================================================================== *)

Module BalanceProperties.

Import Expenses SiteDetail ExpensesFacts.

Lemma sum_over_perm {A} (p : A -> bool) (f : A -> Z) (l l' : list A) :
  Permutation l l' -> sum_over p f l = sum_over p f l'.
Proof.
  induction 1 as [|x l l' _ IH|x y l|l l' l'' _ IH1 _ IH2]; simpl.
  - reflexivity.
  - rewrite IH. reflexivity.
  - lia.
  - rewrite IH1. exact IH2.
Qed.

Lemma sum_over_nonneg {A} (p : A -> bool) (f : A -> Z) (l : list A) :
  amounts_nonneg f l -> 0 <= sum_over p f l.
Proof.
  induction 1 as [|x l Hx _ IH]; simpl; [lia|].
  destruct (p x); lia.
Qed.

Lemma sum_over_le_all {A} (p : A -> bool) (f : A -> Z) (l : list A) :
  amounts_nonneg f l -> sum_over p f l <= sum_all f l.
Proof.
  unfold sum_all. induction 1 as [|x l Hx _ IH]; simpl; [lia|].
  destruct (p x); lia.
Qed.

Lemma filter_all {A} (p : A -> bool) (l : list A) :
  Forall (fun x => p x = true) l -> List.filter p l = l.
Proof.
  induction 1 as [|x l Hx _ IH]; simpl; [reflexivity|].
  rewrite Hx, IH. reflexivity.
Qed.

Lemma scoped_all {A} (siteId : A -> string) (selected : string)
    (l : list A) :
  Forall (fun x => siteId x = selected) l ->
  List.filter (fun x => same_site (siteId x) (Some selected)) l = l.
Proof.
  intros H. apply filter_all.
  induction H as [|x l Hx _ IH]; constructor; [|exact IH].
  simpl. rewrite Hx. apply String.eqb_refl.
Qed.

(** X1. For whole amounts in the exact range the records of the input may
    come in any order: the summary is the same for every rearrangement of
    the four collections.  On amounts with fractions the order can show:
    expenses of 0.1, 0.2 and 0.3 add up to 0.6000000000000001 in that order
    and to 0.6 in the reverse order. *)
Theorem summary_order_independent
    sites expenses expenses' advances advances' funds funds'
    invoices invoices' siteId :
  Permutation expenses expenses' ->
  Permutation advances advances' ->
  Permutation funds funds' ->
  Permutation invoices invoices' ->
  WholeAmounts.sums_exactly expense_amount expenses ->
  WholeAmounts.sums_exactly advance_amount advances ->
  WholeAmounts.sums_exactly funds_amount funds ->
  WholeAmounts.sums_exactly invoice_netAmount invoices ->
  calculateSiteFinancials sites expenses advances funds invoices siteId
  = calculateSiteFinancials sites expenses' advances' funds' invoices' siteId
  /\ Doubles.totalExpenditure
       (Doubles.calculateSiteFinancials
          [{| site_id := "s1" |}] Doubles.tenths [] [] [] (Some "s1"%string))
     <> Doubles.totalExpenditure
          (Doubles.calculateSiteFinancials
             [{| site_id := "s1" |}] (rev Doubles.tenths) [] [] []
             (Some "s1"%string)).
Proof.
  intros He Ha Hf Hi _ _ _ _. split.
  - destruct (site_found sites siteId) eqn:F.
    + rewrite !(calc_found _ _ _ _ _ _ F). unfold computed, sum_all.
      rewrite (sum_over_perm _ funds_amount _ _ Hf).
      rewrite (sum_over_perm _ expense_amount _ _ He).
      rewrite (sum_over_perm (fun a => negb (is_debit a)) _ _ _ Ha).
      rewrite (sum_over_perm is_debit _ _ _ Ha).
      rewrite (sum_over_perm _ invoice_netAmount _ _ Hi).
      reflexivity.
    + rewrite !(calc_not_found _ _ _ _ _ _ F). reflexivity.
  - intros H.
    apply (f_equal
             (fun x => PrimFloat.ltb
                         (Doubles.total Doubles.expense_amount
                                        (rev Doubles.tenths)) x)) in H.
    vm_compute in H. discriminate H.
Qed.

Lemma summary_order_independent_witness :
  calculateSiteFinancials
    [{| site_id := "s1" |}]
    [ {| expense_siteId := "s1"; expense_amount := 2000 |};
      {| expense_siteId := "s1"; expense_amount := 500 |} ]
    [] [] [] (Some "s1")
  = calculateSiteFinancials
      [{| site_id := "s1" |}]
      [ {| expense_siteId := "s1"; expense_amount := 500 |};
        {| expense_siteId := "s1"; expense_amount := 2000 |} ]
      [] [] [] (Some "s1").
Proof.
  apply summary_order_independent;
    [ apply perm_swap | constructor | constructor | constructor
    | unfold WholeAmounts.sums_exactly; vm_compute; discriminate
    | unfold WholeAmounts.sums_exactly; vm_compute; discriminate
    | unfold WholeAmounts.sums_exactly; vm_compute; discriminate
    | unfold WholeAmounts.sums_exactly; vm_compute; discriminate ].
Defined.

(** X2. With no records at all every field of the summary is 0, whether or not
    the site is found. *)
Theorem empty_collections_all_zero sites siteId :
  calculateSiteFinancials sites [] [] [] [] siteId = zeroSummary.
Proof.
  destruct (site_found sites siteId) eqn:F.
  - rewrite (calc_found _ _ _ _ _ _ F). reflexivity.
  - apply calc_not_found, F.
Qed.

(** X3. When no amount is negative, no total of the summary is negative and
    the balance never exceeds the funds received. *)
Theorem summary_bounds sites expenses advances funds invoices siteId :
  amounts_nonneg expense_amount expenses ->
  amounts_nonneg advance_amount advances ->
  amounts_nonneg funds_amount funds ->
  amounts_nonneg invoice_netAmount invoices ->
  let summary :=
    calculateSiteFinancials sites expenses advances funds invoices siteId in
  0 <= fundsReceived summary
  /\ 0 <= totalExpenditure summary
  /\ 0 <= totalAdvances summary
  /\ 0 <= debitsToWorker summary
  /\ 0 <= invoicesPaid summary
  /\ totalBalance summary <= fundsReceived summary.
Proof.
  intros He Ha Hf Hi.
  destruct (site_found sites siteId) eqn:F.
  - rewrite (calc_found _ _ _ _ _ _ F). simpl.
    pose proof (sum_over_nonneg (fun _ => true) _ _ Hf).
    pose proof (sum_over_nonneg (fun _ => true) _ _ He).
    pose proof (sum_over_nonneg (fun a => negb (is_debit a)) _ _ Ha).
    pose proof (sum_over_nonneg is_debit _ _ Ha).
    pose proof (sum_over_nonneg paid_by_supervisor _ _ Hi).
    unfold sum_all. lia.
  - rewrite (calc_not_found _ _ _ _ _ _ F). simpl. lia.
Qed.

Lemma summary_bounds_witness :
  totalBalance
    (calculateSiteFinancials
       [{| site_id := "s1" |}]
       [{| expense_siteId := "s1"; expense_amount := 700 |}]
       [] [{| funds_siteId := "s1"; funds_amount := 500 |}] []
       (Some "s1"))
  <= fundsReceived
       (calculateSiteFinancials
          [{| site_id := "s1" |}]
          [{| expense_siteId := "s1"; expense_amount := 700 |}]
          [] [{| funds_siteId := "s1"; funds_amount := 500 |}] []
          (Some "s1")).
Proof.
  refine (proj2 (proj2 (proj2 (proj2 (proj2
            (summary_bounds [{| site_id := "s1" |}] _ _ _ _ (Some "s1")
                            _ _ _ _))))));
    unfold amounts_nonneg; repeat constructor; simpl; lia.
Defined.

(** X4. The engine does not look at the site a record belongs to: for any two
    ids that are both found in the site list, the summary is the same. *)
Theorem summary_same_for_every_found_site
    sites expenses advances funds invoices siteId siteId' :
  site_found sites siteId = true ->
  site_found sites siteId' = true ->
  calculateSiteFinancials sites expenses advances funds invoices siteId
  = calculateSiteFinancials sites expenses advances funds invoices siteId'.
Proof.
  intros F F'.
  rewrite (calc_found _ _ _ _ _ _ F), (calc_found _ _ _ _ _ _ F').
  reflexivity.
Qed.

Lemma summary_same_for_every_found_site_witness :
  calculateSiteFinancials
    [{| site_id := "s1" |}; {| site_id := "s2" |}]
    [{| expense_siteId := "s1"; expense_amount := 700 |}]
    [] [] [] (Some "s1")
  = calculateSiteFinancials
      [{| site_id := "s1" |}; {| site_id := "s2" |}]
      [{| expense_siteId := "s1"; expense_amount := 700 |}]
      [] [] [] (Some "s2").
Proof. apply summary_same_for_every_found_site; reflexivity. Defined.

(** X5. On whole amounts the summary is additive.  For a found site, when
    the absolute values of all the amounts of the joined collections add up
    to at most 2^53, so that every addition and subtraction is exact, the
    summary of the joined collections is, field by field, the sum of the
    summaries of the parts: adding a record to a collection moves each
    total by that record's share and nothing else. *)
Theorem summary_additive
    sites expenses1 expenses2 advances1 advances2 funds1 funds2
    invoices1 invoices2 siteId :
  site_found sites siteId = true ->
  sum_all (fun e => Z.abs (expense_amount e)) (expenses1 ++ expenses2)
  + sum_all (fun a => Z.abs (advance_amount a)) (advances1 ++ advances2)
  + sum_all (fun f => Z.abs (funds_amount f)) (funds1 ++ funds2)
  + sum_all (fun i => Z.abs (invoice_netAmount i)) (invoices1 ++ invoices2)
  <= WholeAmounts.safe_limit ->
  let whole :=
    calculateSiteFinancials sites (expenses1 ++ expenses2)
      (advances1 ++ advances2) (funds1 ++ funds2) (invoices1 ++ invoices2)
      siteId in
  let part1 :=
    calculateSiteFinancials sites expenses1 advances1 funds1 invoices1
                            siteId in
  let part2 :=
    calculateSiteFinancials sites expenses2 advances2 funds2 invoices2
                            siteId in
  fundsReceived whole = fundsReceived part1 + fundsReceived part2
  /\ totalExpenditure whole = totalExpenditure part1 + totalExpenditure part2
  /\ totalAdvances whole = totalAdvances part1 + totalAdvances part2
  /\ debitsToWorker whole = debitsToWorker part1 + debitsToWorker part2
  /\ invoicesPaid whole = invoicesPaid part1 + invoicesPaid part2
  /\ totalBalance whole = totalBalance part1 + totalBalance part2.
Proof.
  intros F _. rewrite !(calc_found _ _ _ _ _ _ F). simpl.
  unfold sum_all. rewrite !sum_over_app. lia.
Qed.

Lemma summary_additive_witness :
  totalBalance
    (calculateSiteFinancials
       [{| site_id := "s1" |}]
       ([{| expense_siteId := "s1"; expense_amount := 700 |}] ++ [])
       ([] ++ []) ([] ++ [{| funds_siteId := "s1"; funds_amount := 900 |}])
       ([] ++ []) (Some "s1"))
  = totalBalance
      (calculateSiteFinancials
         [{| site_id := "s1" |}]
         [{| expense_siteId := "s1"; expense_amount := 700 |}]
         [] [] [] (Some "s1"))
    + totalBalance
        (calculateSiteFinancials
           [{| site_id := "s1" |}] [] []
           [{| funds_siteId := "s1"; funds_amount := 900 |}] []
           (Some "s1")).
Proof.
  refine (proj2 (proj2 (proj2 (proj2 (proj2
            (summary_additive [{| site_id := "s1" |}] _ _ _ _ _ _ _ _
                              (Some "s1") _ _)))))).
  - reflexivity.
  - vm_compute. discriminate.
Defined.

(** X6. The lists shown for the selected site keep only that site's records,
    while the summary counts every record of the page state: the two agree
    when every record belongs to the selected site, as after a fetch by
    site. *)
Theorem summary_agrees_with_site_lists
    sites expenses advances funds invoices selected :
  Forall (fun e => expense_siteId e = selected) expenses ->
  Forall (fun a => advance_siteId a = selected) advances ->
  Forall (fun f => funds_siteId f = selected) funds ->
  Forall (fun i => invoice_siteId i = selected) invoices ->
  siteExpenses expenses (Some selected) = expenses
  /\ siteAdvances advances (Some selected) = advances
  /\ siteFunds funds (Some selected) = funds
  /\ siteInvoices invoices (Some selected) = invoices
  /\ calculateSiteFinancials sites
       (siteExpenses expenses (Some selected))
       (siteAdvances advances (Some selected))
       (siteFunds funds (Some selected))
       (siteInvoices invoices (Some selected)) (Some selected)
     = calculateSiteFinancials sites expenses advances funds invoices
                               (Some selected).
Proof.
  intros He Ha Hf Hi.
  pose proof (scoped_all expense_siteId selected expenses He) as E1.
  pose proof (scoped_all advance_siteId selected advances Ha) as E2.
  pose proof (scoped_all funds_siteId selected funds Hf) as E3.
  pose proof (scoped_all invoice_siteId selected invoices Hi) as E4.
  unfold siteExpenses, siteAdvances, siteFunds, siteInvoices.
  rewrite E1, E2, E3, E4. repeat split; reflexivity.
Qed.

Lemma summary_agrees_with_site_lists_witness :
  siteExpenses [{| expense_siteId := "s1"; expense_amount := 700 |}]
               (Some "s1"%string)
  = [{| expense_siteId := "s1"; expense_amount := 700 |}].
Proof.
  refine (proj1 (summary_agrees_with_site_lists
                   [] _ [] [] [] "s1" _ _ _ _));
    repeat constructor.
Defined.

(** X7. A record of another site that sits in the page state is counted by
    the summary although the list shown for the selected site leaves it
    out: on whole amounts in the exact range the total expenditure is the
    sum over the site's list plus the sum over the expenses of other
    sites. *)
Theorem summary_counts_other_sites
    sites expenses advances funds invoices selected :
  site_found sites (Some selected) = true ->
  WholeAmounts.sums_exactly expense_amount expenses ->
  totalExpenditure
    (calculateSiteFinancials sites expenses advances funds invoices
                             (Some selected))
  = sum_all expense_amount (siteExpenses expenses (Some selected))
    + sum_over (fun e => negb (String.eqb (expense_siteId e) selected))
               expense_amount expenses.
Proof.
  intros F _. rewrite (calc_found _ _ _ _ _ _ F). simpl.
  rewrite <- (sum_over_partition
                (fun e => String.eqb (expense_siteId e) selected)).
  unfold siteExpenses, sum_all. rewrite sum_over_filter.
  rewrite (sum_over_ext
             (fun e => same_site (expense_siteId e) (Some selected) && true)
             (fun e => String.eqb (expense_siteId e) selected)).
  - lia.
  - intros e. simpl. apply andb_true_r.
Qed.

Lemma summary_counts_other_sites_witness :
  totalExpenditure
    (calculateSiteFinancials
       [{| site_id := "s1" |}]
       [ {| expense_siteId := "s1"; expense_amount := 700 |};
         {| expense_siteId := "s2"; expense_amount := 50 |} ]
       [] [] [] (Some "s1"))
  = 700 + 50.
Proof.
  refine (eq_trans
            (summary_counts_other_sites
               [{| site_id := "s1" |}] _ [] [] [] "s1" _ _) _);
    [ reflexivity
    | unfold WholeAmounts.sums_exactly; vm_compute; discriminate
    | reflexivity ].
Defined.

(** X8. Fetching the invoices of a site empties the page's invoice list, so a
    summary computed from the fetched state has no invoices paid and its
    balance is the funds received less the expenditure and the advances. *)
Theorem fetched_invoices_count_for_nothing
    sites expenses advances funds siteId selected :
  let summary :=
    calculateSiteFinancials sites expenses advances funds
                            (fetchSiteInvoices selected) siteId in
  invoicesPaid summary = 0
  /\ totalBalance summary
     = fundsReceived summary - totalExpenditure summary
       - totalAdvances summary.
Proof.
  destruct (site_found sites siteId) eqn:F.
  - rewrite (calc_found _ _ _ _ _ _ F). simpl. split; [reflexivity | lia].
  - rewrite (calc_not_found _ _ _ _ _ _ F). simpl. split; reflexivity.
Qed.

End BalanceProperties.

(* ===================================================================== *)
(** ** Further properties of the increment_funds endpoint *)
(* ===================================================================== *)

Module IncrementFundsProperties.

Import IncrementFunds IncrementFundsFacts.

Lemma handler_preflight (c : Client) (req : Request) :
  req_method req = "OPTIONS"%string ->
  handler c req = ({| res_status := 200; res_body := None |}, []).
Proof. unfold handler. intros ->. reflexivity. Qed.

Lemma missing_unreadable (req : Request) :
  body_readable req = false -> input_missing req = true.
Proof.
  unfold body_readable, input_missing, request_field.
  destruct (req_json req) as [[]|]; try discriminate; reflexivity.
Qed.

Lemma valid_fields (req : Request) :
  input_missing req = false ->
  exists site_id amount,
    request_field req "site_id" = Some site_id
    /\ request_field req "amount" = Some amount
    /\ truthy (Some site_id) = true.
Proof.
  unfold input_missing. intros H.
  apply orb_false_iff in H as [Hs Ha]. apply negb_false_iff in Hs.
  destruct (request_field req "site_id") as [sid|]; [|discriminate].
  destruct (request_field req "amount") as [amt|]; [|discriminate].
  eauto.
Qed.

(** Splits a goal about [handler c req] into the runs the handler can
    take, rewriting the call by its result in each. *)
Ltac handler_runs c req :=
  let Hopt := fresh "Hopt" in
  let Hr := fresh "Hr" in
  let Hm := fresh "Hm" in
  destruct (String.eqb_spec (req_method req) "OPTIONS") as [Hopt|Hopt];
  [ rewrite !(handler_preflight c req Hopt)
  | destruct (body_readable req) eqn:Hr;
    [ destruct (input_missing req) eqn:Hm;
      [ rewrite !(handler_missing c req Hopt Hr Hm)
      | let sid := fresh "sid" in
        let amt := fresh "amt" in
        let Es := fresh "Es" in
        let Ea := fresh "Ea" in
        let Ht := fresh "Ht" in
        destruct (valid_fields req Hm) as (sid & amt & Es & Ea & Ht);
        rewrite !(handler_valid c req Hopt sid amt Hm Es Ea) ]
    | pose proof (missing_unreadable req Hr) as Hm;
      rewrite !(handler_unreadable c req Hopt Hr) ] ].

(** X9. Every response to a request other than a preflight has status 200, 400
    or 500.  A 200 response carries [success: true] and no [error]; any
    other response carries exactly an [error] message and no [success]. *)
Theorem response_shape (c : Client) (req : Request) :
  req_method req <> "OPTIONS"%string ->
  let r := (handler c req).1 in
  (res_status r = 200
   /\ body_field r "success" = Some (JBool true)
   /\ body_field r "error" = None)
  \/ ((res_status r = 400 \/ res_status r = 500)
      /\ has_error_body r
      /\ body_field r "success" = None).
Proof.
  intros Hne. simpl. handler_runs c req; [contradiction | | | ].
  - right. simpl. split; [auto|]. split; [apply respond_error|reflexivity].
  - destruct (select_funds c sid) as [m|row].
    + right. simpl. split; [auto|].
      split; [apply respond_error|reflexivity].
    + simpl. destruct (update_funds c sid _) as [m|data].
      * right. simpl. split; [auto|].
        split; [apply respond_error|reflexivity].
      * left. simpl. repeat split.
  - right. simpl. split; [auto|]. split; [apply respond_error|reflexivity].
Qed.

Lemma response_shape_witness :
  (res_status (handler null_funds_client not_json).1 = 200
   /\ body_field (handler null_funds_client not_json).1 "success"
      = Some (JBool true)
   /\ body_field (handler null_funds_client not_json).1 "error" = None)
  \/ ((res_status (handler null_funds_client not_json).1 = 400
       \/ res_status (handler null_funds_client not_json).1 = 500)
      /\ has_error_body (handler null_funds_client not_json).1
      /\ body_field (handler null_funds_client not_json).1 "success" = None).
Proof. apply response_shape. discriminate. Defined.

(** X10. The handler sends at most one update, and only for a request that
    passed the input check and whose site was read: the update goes to the
    request's own [site_id] and carries the stored value (0 for a falsy
    one) plus the request's [amount].  A preflight, a rejected request and
    a failed read send nothing. *)
Theorem updates_sent (c : Client) (req : Request) :
  ((handler c req).2 = []
   \/ exists update, (handler c req).2 = [update])
  /\ forall site_id funds,
       In (site_id, funds) (handler c req).2 ->
       req_method req <> "OPTIONS"%string
       /\ input_missing req = false
       /\ request_field req "site_id" = Some site_id
       /\ exists amount row,
            request_field req "amount" = Some amount
            /\ select_funds c site_id = Ok row
            /\ funds = js_add (js_or (row !! "funds") (JNum 0)) amount.
Proof.
  handler_runs c req; simpl.
  - split; [auto | intros ? ? []].
  - split; [auto | intros ? ? []].
  - destruct (select_funds c sid) as [m|row] eqn:Hsel.
    + split; [auto | intros ? ? []].
    + assert (forall site_id funds,
                In (site_id, funds)
                   [(sid, js_add (js_or (row !! "funds") (JNum 0)) amt)] ->
                req_method req <> "OPTIONS"%string
                /\ input_missing req = false
                /\ request_field req "site_id" = Some site_id
                /\ exists amount row',
                     request_field req "amount" = Some amount
                     /\ select_funds c site_id = Ok row'
                     /\ funds
                        = js_add (js_or (row' !! "funds") (JNum 0)) amount)
        as Hin.
      { intros site_id funds [E|[]]. injection E as <- <-.
        repeat split; try assumption. exists amt, row. auto. }
      rewrite Hm in Hin.
      simpl. destruct (update_funds c sid _); simpl;
        (split; [right; eexists; reflexivity | exact Hin]).
  - split; [auto | intros ? ? []].
Qed.

Lemma updates_sent_witness :
  request_field add_five "site_id" = Some (JStr "s1").
Proof.
  refine (proj1 (proj2 (proj2
            (proj2 (updates_sent null_funds_client add_five)
               (JStr "s1") (JNum 5) _)))).
  left. reflexivity.
Defined.

Lemma input_present (req : Request) (site_id amount : json) :
  request_field req "site_id" = Some site_id ->
  truthy (Some site_id) = true ->
  request_field req "amount" = Some amount ->
  input_missing req = false.
Proof.
  intros Es Ht Ea. unfold input_missing. rewrite Es, Ea, Ht. reflexivity.
Qed.

(** X11. An [amount] sent as a string is not rejected: it is appended to the
    decimal text of the stored number, and that text is what the handler
    writes and reports as [new_funds]. *)
Theorem string_amount_concatenated
    (c : Client) (req : Request) (site_id : json) (s : string) (f : Z)
    (row : object) :
  req_method req <> "OPTIONS"%string ->
  request_field req "site_id" = Some site_id ->
  truthy (Some site_id) = true ->
  request_field req "amount" = Some (JStr s) ->
  select_funds c site_id = Ok row ->
  row !! "funds" = Some (JNum f) ->
  (handler c req).2 = [(site_id, JStr (Z_toString f ++ s))]
  /\ forall data,
       update_funds c site_id (JStr (Z_toString f ++ s)) = Ok data ->
       res_status (handler c req).1 = 200
       /\ body_field (handler c req).1 "new_funds"
          = Some (JStr (Z_toString f ++ s)).
Proof.
  intros Hopt Es Ht Ea Hsel Hf.
  rewrite (handler_valid c req Hopt site_id (JStr s)
             (input_present req _ _ Es Ht Ea) Es Ea).
  rewrite Hsel. simpl. rewrite Hf, js_or_funds_number.
  change (js_add (JNum f) (JStr s)) with (JStr (Z_toString f ++ s)).
  split.
  - destruct (update_funds c site_id _); reflexivity.
  - intros data ->. split; reflexivity.
Qed.

Lemma string_amount_concatenated_witness :
  (handler
     {| select_funds := fun _ => Ok {[ "funds" := JNum 100 ]};
        update_funds := fun _ _ => Ok (JArr []) |}
     {| req_method := "POST";
        req_json :=
          Some (JObj {[ "site_id" := JStr "s1"; "amount" := JStr "5" ]}) |}).2
  = [(JStr "s1", JStr "1005")].
Proof.
  refine (proj1 (string_amount_concatenated
                   _ _ (JStr "s1") "5" 100 {[ "funds" := JNum 100 ]}
                   _ _ _ _ _ _));
    [discriminate | reflexivity | reflexivity | reflexivity | reflexivity
    | reflexivity].
Defined.

(** X12. A [null] amount is not rejected either: it counts as 0, so the handler
    writes the stored number back unchanged and answers 200 when the write
    succeeds. *)
Theorem null_amount_accepted
    (c : Client) (req : Request) (site_id : json) (f : Z) (row : object) :
  req_method req <> "OPTIONS"%string ->
  request_field req "site_id" = Some site_id ->
  truthy (Some site_id) = true ->
  request_field req "amount" = Some JNull ->
  select_funds c site_id = Ok row ->
  row !! "funds" = Some (JNum f) ->
  (handler c req).2 = [(site_id, JNum f)]
  /\ forall data,
       update_funds c site_id (JNum f) = Ok data ->
       res_status (handler c req).1 = 200
       /\ body_field (handler c req).1 "new_funds" = Some (JNum f).
Proof.
  intros Hopt Es Ht Ea Hsel Hf.
  rewrite (handler_valid c req Hopt site_id JNull
             (input_present req _ _ Es Ht Ea) Es Ea).
  rewrite Hsel. simpl. rewrite Hf, js_or_funds_number.
  change (js_add (JNum f) JNull) with (JNum (f + 0)).
  rewrite Z.add_0_r. split.
  - destruct (update_funds c site_id _); reflexivity.
  - intros data ->. split; reflexivity.
Qed.

Lemma null_amount_accepted_witness :
  (handler
     {| select_funds := fun _ => Ok {[ "funds" := JNum 100 ]};
        update_funds := fun _ _ => Ok (JArr []) |}
     {| req_method := "POST";
        req_json :=
          Some (JObj {[ "site_id" := JStr "s1"; "amount" := JNull ]}) |}).2
  = [(JStr "s1", JNum 100)].
Proof.
  refine (proj1 (null_amount_accepted
                   _ _ (JStr "s1") 100 {[ "funds" := JNum 100 ]}
                   _ _ _ _ _ _));
    [discriminate | reflexivity | reflexivity | reflexivity | reflexivity
    | reflexivity].
Defined.

(** The value written for a numeric amount is the number the read returned
    plus the amount, whatever else happened in between. *)
Lemma numeric_update
    (c : Client) (req : Request) (site_id : json) (a f : Z) (row : object) :
  req_method req <> "OPTIONS"%string ->
  request_field req "site_id" = Some site_id ->
  truthy (Some site_id) = true ->
  request_field req "amount" = Some (JNum a) ->
  select_funds c site_id = Ok row ->
  row !! "funds" = Some (JNum f) ->
  (handler c req).2 = [(site_id, JNum (f + a))].
Proof.
  intros Hopt Es Ht Ea Hsel Hf.
  rewrite (handler_valid c req Hopt site_id (JNum a)
             (input_present req _ _ Es Ht Ea) Es Ea).
  rewrite Hsel. simpl. rewrite Hf, js_or_funds_number.
  destruct (update_funds c site_id _); reflexivity.
Qed.

(** X13. Two increments of the same site, of [a1] and then [a2], starting from
    a stored [f].  The first writes [f + a1].  If the second reads what the
    first wrote it writes [f + a1 + a2]; if it reads the value from before
    the first write (the read and the write are separate calls), it writes
    [f + a2] and the first increment is lost. *)
Theorem two_increments
    (c1 c2 : Client) (req1 req2 : Request) (site_id : json) (a1 a2 f : Z)
    (row1 row2 : object) :
  req_method req1 <> "OPTIONS"%string ->
  req_method req2 <> "OPTIONS"%string ->
  request_field req1 "site_id" = Some site_id ->
  request_field req2 "site_id" = Some site_id ->
  truthy (Some site_id) = true ->
  request_field req1 "amount" = Some (JNum a1) ->
  request_field req2 "amount" = Some (JNum a2) ->
  select_funds c1 site_id = Ok row1 ->
  row1 !! "funds" = Some (JNum f) ->
  select_funds c2 site_id = Ok row2 ->
  (handler c1 req1).2 = [(site_id, JNum (f + a1))]
  /\ (row2 !! "funds" = Some (JNum (f + a1)) ->
      (handler c2 req2).2 = [(site_id, JNum (f + a1 + a2))])
  /\ (row2 !! "funds" = Some (JNum f) ->
      (handler c2 req2).2 = [(site_id, JNum (f + a2))]).
Proof.
  intros Ho1 Ho2 Es1 Es2 Ht Ea1 Ea2 Hs1 Hf1 Hs2.
  split; [|split].
  - exact (numeric_update c1 req1 site_id a1 f row1 Ho1 Es1 Ht Ea1 Hs1 Hf1).
  - intros Hf2.
    exact (numeric_update c2 req2 site_id a2 (f + a1) row2
             Ho2 Es2 Ht Ea2 Hs2 Hf2).
  - intros Hf2.
    exact (numeric_update c2 req2 site_id a2 f row2 Ho2 Es2 Ht Ea2 Hs2 Hf2).
Qed.

Lemma two_increments_witness :
  (handler
     {| select_funds := fun _ => Ok {[ "funds" := JNum 0 ]};
        update_funds := fun _ _ => Ok (JArr []) |}
     {| req_method := "POST";
        req_json :=
          Some (JObj {[ "site_id" := JStr "s1"; "amount" := JNum 200 ]}) |}).2
  = [(JStr "s1", JNum (0 + 200))].
Proof.
  refine (proj2 (proj2
            (two_increments
               {| select_funds := fun _ => Ok {[ "funds" := JNum 0 ]};
                  update_funds := fun _ _ => Ok (JArr []) |}
               _
               {| req_method := "POST";
                  req_json :=
                    Some (JObj {[ "site_id" := JStr "s1";
                                  "amount" := JNum 100 ]}) |}
               _ (JStr "s1") 100 200 0
               {[ "funds" := JNum 0 ]} {[ "funds" := JNum 0 ]}
               _ _ _ _ _ _ _ _ _ _)) _);
    [discriminate | discriminate | reflexivity | reflexivity | reflexivity
    | reflexivity | reflexivity | reflexivity | reflexivity | reflexivity
    | reflexivity].
Defined.

End IncrementFundsProperties.

(* ===================================================================== *)
(** ** Further properties of the role gate *)
(* ===================================================================== *)

Module MiddlewareProperties.

Import Middleware MiddlewareFacts.

Lemma passes_iff (allowedRoles : list UserRole) (req : Request) :
  checkRole allowedRoles req = [CallNext]
  <-> exists u, user req = Some u /\ In (role u) allowedRoles.
Proof.
  unfold checkRole. destruct (user req) as [u|].
  - destruct (includes allowedRoles (role u)) eqn:E; simpl.
    + apply includes_In in E. split; [eauto | reflexivity].
    + split; [discriminate|]. intros (u' & [= <-] & Hin).
      apply includes_In in Hin. congruence.
  - split; [discriminate|]. intros (u' & Hu & _). discriminate.
Qed.

(** X14. Admission depends only on which roles the allow-list contains, and
    grows with it: a request that passes the gate for one list passes it
    for every list containing the same roles, in any order and with any
    repetitions; with an empty list nobody passes. *)
Theorem gate_monotone (allowedRoles allowedRoles' : list UserRole)
    (req : Request) :
  (forall r, In r allowedRoles -> In r allowedRoles') ->
  (checkRole allowedRoles req = [CallNext] ->
   checkRole allowedRoles' req = [CallNext])
  /\ checkRole [] req <> [CallNext].
Proof.
  intros Hsub. split.
  - rewrite !passes_iff. intros (u & Hu & Hin). eauto.
  - rewrite passes_iff. intros (u & _ & []).
Qed.

Lemma gate_monotone_witness :
  checkRole ["viewer"%string; "admin"%string]
            {| user := Some {| role := "admin" |} |}
  = [CallNext].
Proof.
  refine (proj1 (gate_monotone ["admin"%string]
                   ["viewer"%string; "admin"%string]
                   {| user := Some {| role := "admin" |} |} _) _).
  - intros r [<-|[]]. simpl. auto.
  - reflexivity.
Defined.

End MiddlewareProperties.

(* ===================================================================== *)
(** ** Further properties of the invoice mapping *)
(* ===================================================================== *)

Module InvoiceMappingProperties.

Import Invoices InvoicesFacts.

Section Mapping.

Variable Number_ : jsval -> Z.
Variable Date_new : jsval -> JsDate.
Variable JSON_parse : string -> option json.

Abbreviation mapInvoice_ := (mapInvoice Number_ Date_new JSON_parse).
Abbreviation mapInvoices_ := (mapInvoices Number_ Date_new JSON_parse).

Lemma mapInvoice_fields (row : object) (inv : Invoice) :
  mapInvoice_ row = Some inv ->
  exists items details,
    inv = {|
      id := row !! "id";
      date := Date_new (row !! "date");
      partyId := row !! "party_id";
      partyName := row !! "party_name";
      material := row !! "material";
      quantity := Number_ (row !! "quantity");
      rate := Number_ (row !! "rate");
      gstPercentage := Number_ (row !! "gst_percentage");
      grossAmount := Number_ (row !! "gross_amount");
      netAmount := Number_ (row !! "net_amount");
      materialItems := items;
      bankDetails := details;
      billUrl := js_or (row !! "bill_url") (JStr EmptyString);
      invoiceImageUrl := js_or (row !! "invoice_image_url") (JStr EmptyString);
      paymentStatus := row !! "payment_status";
      createdBy := js_or (row !! "created_by") (JStr EmptyString);
      createdAt := Date_new (row !! "created_at");
      approverType := js_or (row !! "approver_type") (JStr "ho");
      siteId := row !! "site_id";
      status := row !! "payment_status";
      vendorName := row !! "party_name";
      invoiceNumber := row !! "id";
      amount := Number_ (row !! "net_amount")
    |}.
Proof.
  unfold mapInvoice. intros H.
  destruct (parse_or JSON_parse (row !! "material_items") (JArr []))
    as [items|]; [|discriminate H].
  destruct (parse_or JSON_parse (row !! "bank_details") (JObj ∅))
    as [details|]; [|discriminate H].
  simpl in H. injection H as <-. eauto.
Qed.

Lemma js_or_result (v : jsval) (fallback : json) :
  js_or v fallback = fallback
  \/ (v = Some (js_or v fallback) /\ truthy (Some (js_or v fallback)) = true).
Proof.
  unfold js_or. destruct v as [x|]; [|auto].
  destruct (truthy (Some x)) eqn:E; auto.
Qed.

(** X15. The records [mapInvoices] returns carry each of four values twice, and
    the two copies agree: [status] and [paymentStatus], [vendorName] and
    [partyName], [invoiceNumber] and [id], [amount] and [netAmount]. *)
Theorem mapped_aliases_agree (data : list object) (out : list Invoice) :
  mapInvoices_ data = Some out ->
  Forall (fun inv =>
            status inv = paymentStatus inv
            /\ vendorName inv = partyName inv
            /\ invoiceNumber inv = id inv
            /\ amount inv = netAmount inv) out.
Proof.
  intros H. apply mapM_Some in H.
  induction H as [|row inv data out Hrow _ IH]; constructor; [|exact IH].
  apply mapInvoice_fields in Hrow as (items & details & ->).
  simpl. auto.
Qed.

(** X16. In a mapped record [approverType] is always truthy (the row's own value
    or "ho"), and [billUrl], [invoiceImageUrl] and [createdBy] are the
    row's truthy value or the empty string: none of them is ever [null]. *)
Theorem mapped_defaults (data : list object) (out : list Invoice) :
  mapInvoices_ data = Some out ->
  Forall (fun inv =>
            truthy (Some (approverType inv)) = true
            /\ approverType inv <> JNull
            /\ billUrl inv <> JNull
            /\ invoiceImageUrl inv <> JNull
            /\ createdBy inv <> JNull) out.
Proof.
  intros H. apply mapM_Some in H.
  induction H as [|row inv data out Hrow _ IH]; constructor; [|exact IH].
  apply mapInvoice_fields in Hrow as (items & details & ->). simpl.
  assert (forall v fallback, fallback <> JNull -> js_or v fallback <> JNull)
    as Hnn.
  { intros v fallback Hfb.
    destruct (js_or_result v fallback) as [->|[_ Ht]]; [exact Hfb|].
    intros E. rewrite E in Ht. discriminate. }
  split.
  - destruct (js_or_result (row !! "approver_type") (JStr "ho"))
      as [->|[_ Ht]]; [reflexivity | exact Ht].
  - repeat split; apply Hnn; discriminate.
Qed.

(** X17. One row whose [material_items] or [bank_details] is truthy but does not
    parse as JSON makes the whole mapping throw: no invoice of the batch is
    returned. *)
Theorem one_bad_row_aborts (data : list object) (row : object) :
  In row data ->
  parse_or JSON_parse (row !! "material_items") (JArr []) = None
  \/ parse_or JSON_parse (row !! "bank_details") (JObj ∅) = None ->
  mapInvoices_ data = None.
Proof.
  intros Hin Hbad.
  assert (mapInvoice_ row = None) as Hrow.
  { unfold mapInvoice. destruct Hbad as [-> | Hb]; [reflexivity|].
    destruct (parse_or JSON_parse (row !! "material_items") (JArr []));
      [|reflexivity].
    simpl. rewrite Hb. reflexivity. }
  destruct (mapInvoices_ data) as [out|] eqn:E; [|reflexivity].
  exfalso.
  assert (is_Some (mapInvoices_ data)) as Hs by (rewrite E; eauto).
  apply mapM_is_Some in Hs.
  apply list_elem_of_In in Hin.
  pose proof (proj1 (Forall_forall _ _) Hs row Hin) as Hsome.
  simpl in Hsome. rewrite Hrow in Hsome. destruct Hsome as [? Hx].
  discriminate Hx.
Qed.

End Mapping.

Lemma mapped_aliases_agree_witness :
  Forall (fun inv =>
            status inv = paymentStatus inv
            /\ vendorName inv = partyName inv
            /\ invoiceNumber inv = id inv
            /\ amount inv = netAmount inv)
    [ {| id := Some (JNum 7); date := None; partyId := None;
         partyName := Some (JStr "Acme"); material := None; quantity := 0;
         rate := 0; gstPercentage := 0; grossAmount := 0; netAmount := 0;
         materialItems := JArr []; bankDetails := JObj ∅;
         billUrl := JStr EmptyString; invoiceImageUrl := JStr EmptyString;
         paymentStatus := Some (JStr "pending");
         createdBy := JStr EmptyString; createdAt := None;
         approverType := JStr "ho"; siteId := None;
         status := Some (JStr "pending");
         vendorName := Some (JStr "Acme");
         invoiceNumber := Some (JNum 7); amount := 0 |} ].
Proof.
  apply (mapped_aliases_agree
           (fun _ => 0) (fun _ => None) (fun _ => None)
           [ {[ "id" := JNum 7; "party_name" := JStr "Acme";
                "payment_status" := JStr "pending" ]} ]).
  vm_compute. reflexivity.
Defined.

Lemma mapped_defaults_witness :
  Forall (fun inv =>
            truthy (Some (approverType inv)) = true
            /\ approverType inv <> JNull
            /\ billUrl inv <> JNull
            /\ invoiceImageUrl inv <> JNull
            /\ createdBy inv <> JNull)
    [ {| id := Some (JNum 7); date := None; partyId := None;
         partyName := None; material := None; quantity := 0;
         rate := 0; gstPercentage := 0; grossAmount := 0; netAmount := 0;
         materialItems := JArr []; bankDetails := JObj ∅;
         billUrl := JStr EmptyString; invoiceImageUrl := JStr EmptyString;
         paymentStatus := None;
         createdBy := JStr EmptyString; createdAt := None;
         approverType := JStr "ho"; siteId := None;
         status := None; vendorName := None;
         invoiceNumber := Some (JNum 7); amount := 0 |} ].
Proof.
  apply (mapped_defaults
           (fun _ => 0) (fun _ => None) (fun _ => None)
           [ {[ "id" := JNum 7; "approver_type" := JNull;
                "bill_url" := JNull ]} ]).
  vm_compute. reflexivity.
Defined.

Lemma one_bad_row_aborts_witness :
  mapInvoices (fun _ => 0) (fun _ => None) (fun _ => None)
    [ {[ "id" := JNum 1 ]};
      {[ "id" := JNum 2; "material_items" := JStr "not json" ]} ]
  = None.
Proof.
  apply (one_bad_row_aborts
           (fun _ => 0) (fun _ => None) (fun _ => None) _
           {[ "id" := JNum 2; "material_items" := JStr "not json" ]}).
  - right. left. reflexivity.
  - left. vm_compute. reflexivity.
Defined.

End InvoiceMappingProperties.

(* ===================================================================== *)
(** ** Properties of the advance form *)
(* ===================================================================== *)

Module AdvanceFormProperties.

Import Expenses AdvanceForm.

(** X18. Every call ends by clearing the submitting flag, the call stopped by
    the double-submission guard included: that call does nothing else, so
    it clears the flag of the submission that is still under way. *)
Theorem flag_always_cleared
    (isSubmitting : bool) (siteId : string) (user_id insert_error : option string)
    (values : FormValues) :
  exists before,
    handleSubmit isSubmitting siteId user_id insert_error values
    = before ++ [SetIsSubmitting false]
    /\ (isSubmitting = true -> before = [])
    /\ (isSubmitting = false ->
        exists row rest, before = SetIsSubmitting true :: Insert row :: rest).
Proof.
  unfold handleSubmit. eexists. split; [reflexivity|].
  destruct isSubmitting; split; try discriminate; try reflexivity.
  intros _. eauto.
Qed.

Lemma flag_always_cleared_witness :
  exists before,
    handleSubmit true "s1" None None
      {| values_date := Some 0; values_recipientType := "worker";
         values_recipientName := "Ravi"; values_purpose := TOOLS;
         values_amount := 300; values_remarks := None |}
    = before ++ [SetIsSubmitting false]
    /\ before = [].
Proof.
  destruct (flag_always_cleared true "s1" None None
              {| values_date := Some 0; values_recipientType := "worker";
                 values_recipientName := "Ravi"; values_purpose := TOOLS;
                 values_amount := 300; values_remarks := None |})
    as (before & E & Hguard & _).
  exists before. split; [exact E | apply Hguard; reflexivity].
Defined.

(** X19. The form reports an advance to its parent and closes exactly when the
    guard let the call through and the insert succeeded.  The advance
    reported is the row that was inserted: it belongs to the form's site,
    carries the entered amount and purpose, has status "pending", and its
    remarks are the entered text or the empty string.  After a failed
    insert the form stays open and shows an error. *)
Theorem reports_what_it_inserted
    (isSubmitting : bool) (siteId : string) (user_id insert_error : option string)
    (values : FormValues) :
  let effects :=
    handleSubmit isSubmitting siteId user_id insert_error values in
  (forall advance,
     In (OnSubmit advance) effects ->
     isSubmitting = false
     /\ insert_error = None
     /\ In (Insert advance) effects
     /\ In OnClose effects
     /\ site_id advance = siteId
     /\ amount advance = values_amount values
     /\ purpose advance = values_purpose values
     /\ status advance = "pending"%string
     /\ remarks advance = remarks_or_empty (values_remarks values))
  /\ (isSubmitting = false -> insert_error = None ->
      exists advance, In (OnSubmit advance) effects)
  /\ (In OnClose effects ->
      exists advance, In (OnSubmit advance) effects)
  /\ (isSubmitting = false -> insert_error <> None ->
      In (ToastError "Failed to submit advance") effects
      /\ ~ In OnClose effects).
Proof.
  unfold handleSubmit.
  destruct isSubmitting, insert_error as [e|]; simpl;
    repeat split; try discriminate; try congruence; intros;
    repeat match goal with
           | H : _ \/ _ |- _ => destruct H
           | H : False |- _ => destruct H
           | H : OnSubmit _ = OnSubmit _ |- _ => injection H as <-
           | H : _ = _ |- _ => discriminate H
           end;
    simpl; eauto 10; try tauto.
  intros [H1|[H1|[H1|[H1|[]]]]]; discriminate H1.
Qed.

Lemma reports_what_it_inserted_witness :
  exists advance,
    In (OnSubmit advance)
       (handleSubmit false "s1" (Some "u1"%string) None
          {| values_date := Some 0; values_recipientType := "worker";
             values_recipientName := "Ravi"; values_purpose := TOOLS;
             values_amount := 300; values_remarks := None |}).
Proof.
  apply (proj1 (proj2 (reports_what_it_inserted
                         false "s1" (Some "u1"%string) None _)));
    reflexivity.
Defined.

End AdvanceFormProperties.

(* ===================================================================== *)
(** ** Properties of search and payment on the Invoices page *)
(* ===================================================================== *)

Module InvoicesPageProperties.

Import Invoices JSMethods InvoicesPage.

Lemma str_includes_empty (s : string) : str_includes s EmptyString = true.
Proof. destruct s; reflexivity. Qed.

Lemma filter_throwing_None {A} (p : A -> option bool) (l : list A) (x : A) :
  In x l -> p x = None -> filter_throwing p l = None.
Proof.
  intros Hin Hx. induction l as [|y l IH]; [destruct Hin|].
  simpl. destruct Hin as [-> | Hin].
  - rewrite Hx. reflexivity.
  - destruct (p y); [|reflexivity]. simpl. rewrite (IH Hin). reflexivity.
Qed.

Lemma filter_throwing_all {A} (p : A -> option bool) (l : list A) :
  Forall (fun x => p x = Some true) l -> filter_throwing p l = Some l.
Proof.
  induction 1 as [|x l Hx _ IH]; [reflexivity|].
  simpl. rewrite Hx, IH. reflexivity.
Qed.

Section Page.

Variable toLowerCase : string -> string.
Variable PAID : json.
Variable toLocaleString : Z -> string.

(** X20. With an empty search box every invoice is listed, provided every party
    name is a string. *)
Theorem empty_search_lists_all (invoices : list Invoice) :
  toLowerCase EmptyString = EmptyString ->
  Forall (fun invoice => is_string (partyName invoice)) invoices ->
  filteredInvoices toLowerCase invoices EmptyString = Some invoices.
Proof.
  intros Hlow Hall. apply filter_throwing_all.
  eapply Forall_impl; [exact Hall|].
  intros invoice [s Hs]. unfold matches_search, lower_includes.
  rewrite Hs. simpl. rewrite Hlow, str_includes_empty. reflexivity.
Qed.

(** X21. One invoice whose party name is not a string (a [null] from the
    database, say) makes the search throw, whatever is searched for: the
    list cannot be shown at all. *)
Theorem party_name_must_be_string
    (invoices : list Invoice) (invoice : Invoice) (searchTerm : string) :
  In invoice invoices ->
  ~ is_string (partyName invoice) ->
  filteredInvoices toLowerCase invoices searchTerm = None.
Proof.
  intros Hin Hns. apply (filter_throwing_None _ _ invoice Hin).
  unfold matches_search, lower_includes, call_toLowerCase.
  destruct (partyName invoice) as [[| | |s| |]|]; try reflexivity.
  exfalso. apply Hns. exists s. reflexivity.
Qed.

(** X22. A successful payment keeps the list as long as it was, sets
    [paymentStatus] to PAID on the invoices that carry the paid invoice's
    id and leaves all their other fields, [status] included, untouched;
    invoices with another id are unchanged and the dialog is closed.  A
    failed or rejected update changes nothing. *)
Theorem payment_updates_matching (st : PageState) (invoice : Invoice) :
  is_primitive (id invoice) = true ->
  let paid := (handleMakePayment PAID toLocaleString Succeeded st invoice).1 in
  Forall2
    (fun before after =>
       if strict_eq (id before) (id invoice)
       then after = with_paymentStatus (Some PAID) before
            /\ paymentStatus after = Some PAID
            /\ status after = status before
            /\ id after = id before
            /\ netAmount after = netAmount before
       else after = before)
    (invoices st) (invoices paid)
  /\ isViewDialogOpen paid = false
  /\ (forall message,
        (handleMakePayment PAID toLocaleString (Failed message) st invoice).1
        = st
        /\ (handleMakePayment PAID toLocaleString (Threw message) st invoice).1
           = st).
Proof.
  intros _. simpl.
  split; [|split; [reflexivity | intros; split; reflexivity]].
  induction (invoices st) as [|inv l IH]; simpl; constructor; [|exact IH].
  destruct (strict_eq (id inv) (id invoice)); simpl; auto.
Qed.

(** X23. After a successful payment an invoice whose [status] (the copy of the
    payment status that [mapInvoices] makes) was not PAID carries two
    different answers: its [paymentStatus] is PAID while its [status] still
    has the old value. *)
Theorem paid_invoice_keeps_old_status
    (st : PageState) (invoice before : Invoice) :
  In before (invoices st) ->
  strict_eq (id before) (id invoice) = true ->
  status before <> Some PAID ->
  exists after,
    In after
       (invoices
          (handleMakePayment PAID toLocaleString Succeeded st invoice).1)
    /\ id after = id before
    /\ paymentStatus after = Some PAID
    /\ status after = status before
    /\ status after <> paymentStatus after.
Proof.
  intros Hin Heq Hne. exists (with_paymentStatus (Some PAID) before).
  simpl. split; [|repeat split; exact Hne].
  apply in_map_iff. exists before. rewrite Heq. auto.
Qed.

End Page.

Lemma empty_search_lists_all_witness :
  filteredInvoices (fun s => s) [pending_invoice] EmptyString
  = Some [pending_invoice].
Proof.
  apply empty_search_lists_all; [reflexivity|].
  repeat constructor. exists "Acme"%string. reflexivity.
Defined.

Lemma party_name_must_be_string_witness :
  filteredInvoices (fun s => s)
    [pending_invoice;
     {| id := Some (JStr "inv-2"); date := None; partyId := None;
        partyName := Some JNull; material := Some (JStr "Sand");
        quantity := 0; rate := 0; gstPercentage := 0; grossAmount := 0;
        netAmount := 10; materialItems := JArr []; bankDetails := JObj ∅;
        billUrl := JStr EmptyString; invoiceImageUrl := JStr EmptyString;
        paymentStatus := None; createdBy := JStr EmptyString;
        createdAt := None; approverType := JStr "ho"; siteId := None;
        status := None; vendorName := Some JNull;
        invoiceNumber := Some (JStr "inv-2"); amount := 10 |}]
    "Acme"
  = None.
Proof.
  eapply party_name_must_be_string.
  - right. left. reflexivity.
  - simpl. intros [s Hs]. discriminate Hs.
Defined.

Lemma payment_updates_matching_witness :
  isViewDialogOpen
    (handleMakePayment (JStr "paid") (fun _ => EmptyString) Succeeded
       {| invoices := [pending_invoice]; isViewDialogOpen := true |}
       pending_invoice).1
  = false.
Proof.
  exact (proj1 (proj2 (payment_updates_matching
                         (JStr "paid") (fun _ => EmptyString)
                         {| invoices := [pending_invoice];
                            isViewDialogOpen := true |}
                         pending_invoice eq_refl))).
Defined.

Lemma paid_invoice_keeps_old_status_witness :
  exists after,
    In after
       (invoices
          (handleMakePayment (JStr "paid") (fun _ => EmptyString) Succeeded
             {| invoices := [pending_invoice]; isViewDialogOpen := true |}
             pending_invoice).1)
    /\ id after = id pending_invoice
    /\ paymentStatus after = Some (JStr "paid")
    /\ status after = status pending_invoice
    /\ status after <> paymentStatus after.
Proof.
  apply paid_invoice_keeps_old_status;
    [left; reflexivity | reflexivity | discriminate].
Defined.

End InvoicesPageProperties.

(* ===================================================================== *)
(** ** Properties of the site list, completion and added funds *)
(* ===================================================================== *)

Module SitesPageProperties.

Import JSMethods SitesPage.
Import InvoicesPageProperties.

Lemma filter_throwing_conj {A} (p : A -> option bool) (q : A -> bool)
    (l kept : list A) :
  filter_throwing p l = Some kept ->
  filter_throwing (fun x => b ← p x; Some ((b : bool) && q x)) l
  = Some (List.filter q kept).
Proof.
  revert kept. induction l as [|x l IH]; simpl; intros kept H.
  - injection H as <-. reflexivity.
  - destruct (p x) as [b|]; [|discriminate H]. simpl in *.
    destruct (filter_throwing p l) as [rest|]; [|discriminate H].
    simpl in *. injection H as <-. rewrite (IH rest eq_refl). simpl.
    destruct b; simpl; [|reflexivity].
    destruct (q x); reflexivity.
Qed.

Lemma filter_throwing_ext {A} (p p' : A -> option bool) (l : list A) :
  (forall x, p x = p' x) -> filter_throwing p l = filter_throwing p' l.
Proof.
  intros E. induction l as [|x l IH]; simpl; [reflexivity|].
  rewrite E, IH. reflexivity.
Qed.

Section Page.

Variable toLowerCase : string -> string.
Variable Number_ : jsval -> Z.
Variable Date_new : jsval -> Invoices.JsDate.
Variable toISOString : Z -> string.
Variable now : Z.
Variable RangeError_message : string.

Abbreviation filteredSites_ := (filteredSites toLowerCase).
Abbreviation handleCompleteSite_ :=
  (handleCompleteSite toISOString RangeError_message).
Abbreviation handleAddFunds_ :=
  (handleAddFunds Number_ Date_new toISOString now RangeError_message).

Lemma filteredSites_status (sites listed : list Site) (searchTerm : string)
    (supervisor : option string) (filterStatus : string) :
  filteredSites_ sites searchTerm supervisor "all" = Some listed ->
  filteredSites_ sites searchTerm supervisor filterStatus
  = Some (List.filter (matchesStatus filterStatus) listed).
Proof.
  unfold filteredSites. intros H.
  pose proof (filter_throwing_conj _ (matchesStatus filterStatus) _ _ H) as H'.
  rewrite <- H'. apply filter_throwing_ext. intros site.
  destruct (matchesSearch toLowerCase searchTerm site) as [b|];
    [|reflexivity].
  simpl. rewrite andb_true_r. reflexivity.
Qed.

(** X24. The status filter splits the list: whatever the search and the
    supervisor, when the sites listed under "all" are [listed], "active"
    lists those of them that are not completed and "completed" those that
    are, in the same order, and each listed site is in exactly one of the
    two. *)
Theorem status_filter_splits (sites listed : list Site) (searchTerm : string)
    (supervisor : option string) :
  filteredSites_ sites searchTerm supervisor "all" = Some listed ->
  filteredSites_ sites searchTerm supervisor "active"
  = Some (List.filter (fun site => negb (truthy (isCompleted site))) listed)
  /\ filteredSites_ sites searchTerm supervisor "completed"
     = Some (List.filter (fun site => truthy (isCompleted site)) listed)
  /\ Permutation listed
       (List.filter (fun site => negb (truthy (isCompleted site))) listed
        ++ List.filter (fun site => truthy (isCompleted site)) listed).
Proof.
  intros H. split; [|split].
  - exact (filteredSites_status _ _ _ _ "active" H).
  - exact (filteredSites_status _ _ _ _ "completed" H).
  - clear H. induction listed as [|site l IH]; simpl; [constructor|].
    destruct (truthy (isCompleted site)); simpl.
    + apply Permutation_cons_app. exact IH.
    + constructor. exact IH.
Qed.

(** X25. With an empty search box, no supervisor chosen and the status filter on
    "all", every site is listed, provided every site name is a string. *)
Theorem no_filter_lists_all (sites : list Site) :
  toLowerCase EmptyString = EmptyString ->
  Forall (fun site => is_string (name site)) sites ->
  filteredSites_ sites EmptyString None "all" = Some sites.
Proof.
  intros Hlow Hall. apply filter_throwing_all.
  eapply Forall_impl; [exact Hall|].
  intros site [s Hs]. unfold matchesSearch, lower_includes.
  rewrite Hs. simpl. rewrite Hlow, str_includes_empty. reflexivity.
Qed.

(** X26. One site whose name is not a string makes the list throw, whatever the
    search, the supervisor and the status filter. *)
Theorem site_name_must_be_string (sites : list Site) (site : Site)
    (searchTerm : string) (supervisor : option string)
    (filterStatus : string) :
  In site sites ->
  ~ is_string (name site) ->
  filteredSites_ sites searchTerm supervisor filterStatus = None.
Proof.
  intros Hin Hns. apply (filter_throwing_None _ _ site Hin).
  unfold matchesSearch, lower_includes, call_toLowerCase.
  destruct (name site) as [[| | |s| |]|]; try reflexivity.
  exfalso. apply Hns. exists s. reflexivity.
Qed.

Lemma filter_throwing_kept {A} (p : A -> option bool) (l kept : list A)
    (x : A) :
  filter_throwing p l = Some kept ->
  In x kept -> In x l /\ p x = Some true.
Proof.
  revert kept. induction l as [|y l IH]; simpl; intros kept H Hin.
  - injection H as <-. destruct Hin.
  - destruct (p y) as [b|] eqn:Hy; [|discriminate H]. simpl in H.
    destruct (filter_throwing p l) as [rest|]; [|discriminate H].
    simpl in H. injection H as <-.
    destruct b.
    + destruct Hin as [<- | Hin]; [auto|].
      destruct (IH rest eq_refl Hin). auto.
    + destruct (IH rest eq_refl Hin). auto.
Qed.

(** X27. Once a site has been marked as completed it is no longer listed under
    "active", whatever the search and the supervisor; the sites with
    another id are as they were, and the list keeps its length. *)
Theorem completed_site_not_active
    (sites : list Site) (siteId : string) (time : Z) :
  let marked :=
    (handleCompleteSite_ Succeeded sites siteId (Some time)).1 in
  length marked = length sites
  /\ (forall site, In site sites -> strict_eq_str (id site) siteId = false ->
        In site marked)
  /\ (forall site, In site marked -> strict_eq_str (id site) siteId = true ->
        isCompleted site = Some (JBool true)
        /\ completionDate site = Some (Some time))
  /\ (forall searchTerm supervisor listed,
        filteredSites_ marked searchTerm supervisor "active" = Some listed ->
        Forall (fun site => strict_eq_str (id site) siteId = false) listed).
Proof.
  simpl. split; [apply length_map|].
  assert (forall site,
            In site
               (map (fun s => if strict_eq_str (id s) siteId
                              then completed (Some time) s else s) sites) ->
            strict_eq_str (id site) siteId = true ->
            isCompleted site = Some (JBool true)
            /\ completionDate site = Some (Some time)) as Hmarked.
  { intros site Hin Hid. apply in_map_iff in Hin as (s & <- & _).
    destruct (strict_eq_str (id s) siteId) eqn:E; [split; reflexivity|].
    congruence. }
  split; [|split; [exact Hmarked|]].
  - intros site Hin Hid. apply in_map_iff. exists site.
    rewrite Hid. auto.
  - intros searchTerm supervisor listed H.
    apply List.Forall_forall. intros site Hin.
    destruct (filter_throwing_kept _ _ _ site H Hin) as [Hm Hkeep].
    destruct (strict_eq_str (id site) siteId) eqn:E; [|reflexivity].
    destruct (Hmarked site Hm E) as [Hc _].
    destruct (matchesSearch toLowerCase searchTerm site) as [b|];
      [|discriminate Hkeep].
    simpl in Hkeep. unfold matchesStatus in Hkeep. simpl in Hkeep.
    rewrite Hc in Hkeep. simpl in Hkeep.
    rewrite andb_false_r in Hkeep. discriminate Hkeep.
Qed.

Lemma find_updated (p : Site -> bool) (g : Site -> Site) (l : list Site) :
  (forall s, p (g s) = p s) ->
  find p (map (fun s => if p s then g s else s) l) = g <$> find p l.
Proof.
  intros Hp. induction l as [|s l IH]; simpl; [reflexivity|].
  destruct (p s) eqn:E.
  - rewrite Hp, E. reflexivity.
  - rewrite E. exact IH.
Qed.

Lemma past_guard (st : PageState) (newFund : NewFund) (selectedSite : string) :
  can_insert st newFund selectedSite ->
  negb (truthy (newFund_siteId newFund))
  || negb (selected (selectedSiteId st)) = false.
Proof.
  intros (Hsel & Hne & Ht & _). rewrite Hsel, Ht. simpl.
  destruct (String.eqb_spec selectedSite EmptyString); [contradiction|].
  reflexivity.
Qed.

(** X28. A successful round.  When the insert returns a row and the update of
    the site succeeds, the row is put in front of the funds list with the
    amount the database returned, and the funds of the selected site, a
    number [f] in the page's copy, become [f] plus that amount, both in the
    page's copy and in the update sent. *)
Theorem funds_added_in_step
    (st : PageState) (newFund : NewFund) (selectedSite : string)
    (data : object) (site : Site) (f : Z) :
  can_insert st newFund selectedSite ->
  find (fun s => strict_eq_str (id s) selectedSite) (sites st) = Some site ->
  funds site = JNum f ->
  let added := Number_ (data !! "amount") in
  let result :=
    handleAddFunds_ (InsertOk (Some data)) Succeeded st newFund in
  (exists fund,
     fundsReceived result.1 = fund :: fundsReceived st
     /\ fund_amount fund = added)
  /\ find (fun s => strict_eq_str (id s) selectedSite) (sites result.1)
     = Some (with_funds (JNum (f + added)) site)
  /\ In (UpdateSiteFunds selectedSite (JNum (f + added))) result.2.
Proof.
  intros Hc Hfind Hf. pose proof (past_guard _ _ _ Hc) as Hg.
  destruct Hc as (Hsel & Hne & Ht & Hd).
  assert (updatedFunds (sites st) selectedSite (Number_ (data !! "amount"))
          = JNum (f + Number_ (data !! "amount"))) as Hup.
  { unfold updatedFunds. rewrite Hfind. simpl. rewrite Hf.
    unfold js_or, truthy. destruct (Z.eqb_spec f 0); subst; reflexivity. }
  unfold handleAddFunds. rewrite Hsel in *. rewrite Hg.
  destruct (newFund_date newFund) as [[t|]|]; [|contradiction|];
    simpl; rewrite Hup;
    (split; [eexists; split; reflexivity|];
     split; [rewrite find_updated by reflexivity; rewrite Hfind; reflexivity|];
     simpl; auto).
Qed.

(** X29. When the insert returned a row but the update of the site failed, the
    page still announces success: the record is in the funds list, the
    funds of no site in the page's copy have changed, and no error is
    shown. *)
Theorem failed_update_still_success
    (st : PageState) (newFund : NewFund) (selectedSite : string)
    (data : object) (message : string) :
  can_insert st newFund selectedSite ->
  let result :=
    handleAddFunds_ (InsertOk (Some data)) (Failed message) st newFund in
  sites result.1 = sites st
  /\ (exists fund,
        fundsReceived result.1 = fund :: fundsReceived st
        /\ fund_amount fund = Number_ (data !! "amount"))
  /\ In (ToastSuccess "Funds received recorded successfully") result.2
  /\ forall text, ~ In (ToastError text) result.2.
Proof.
  intros Hc. pose proof (past_guard _ _ _ Hc) as Hg.
  destruct Hc as (Hsel & Hne & Ht & Hd).
  unfold handleAddFunds. rewrite Hsel in *. rewrite Hg.
  destruct (newFund_date newFund) as [[t|]|]; [|contradiction|]; simpl;
    (split; [reflexivity|]; split; [eexists; split; reflexivity|];
     split; [auto|];
     intros text [E|[E|[E|[E|[E|[]]]]]]; discriminate E).
Qed.

(** X30. Nothing is recorded without a row from the insert.  With no site
    selected, or a new record that names no site, the page only shows an
    error and sends nothing; and whenever the insert does not return a row
    the page state is unchanged, no update of the site's funds is sent and
    no success is announced. *)
Theorem nothing_recorded_without_insert
    (inserted : Inserted) (update : Awaited) (st : PageState)
    (newFund : NewFund) :
  let result := handleAddFunds_ inserted update st newFund in
  (selected (selectedSiteId st) = false
   \/ truthy (newFund_siteId newFund) = false ->
   result = (st, [ToastError "No site selected for funds received"]))
  /\ ((forall data, inserted <> InsertOk (Some data)) ->
      result.1 = st
      /\ (forall siteId funds, ~ In (UpdateSiteFunds siteId funds) result.2)
      /\ forall text, ~ In (ToastSuccess text) result.2).
Proof.
  simpl. split.
  - intros H. unfold handleAddFunds.
    destruct (selectedSiteId st) as [sel|] eqn:Hsel; [|reflexivity].
    destruct H as [-> | ->]; simpl; [rewrite orb_true_r|]; reflexivity.
  - intros Hno. unfold handleAddFunds.
    destruct (selectedSiteId st) as [sel|] eqn:Hsel.
    + destruct (negb (truthy (newFund_siteId newFund)) || _); simpl.
      * split; [reflexivity|].
        split; intros; intros [E|[]]; discriminate E.
      * destruct (newFund_date newFund) as [[t|]|]; simpl;
          try (split; [reflexivity|];
               split; intros; intros [E|[]]; discriminate E);
          (destruct inserted as [m|m|[data|]]; simpl;
           [ | | exfalso; eapply Hno; reflexivity | ];
           (split; [reflexivity|];
            split; intros;
            repeat match goal with
                   | |- ~ _ => intros ?
                   | H : _ \/ _ |- _ => destruct H
                   | H : False |- _ => destruct H
                   | H : _ = _ |- _ => discriminate H
                   end)).
    + simpl. split; [reflexivity|].
      split; intros; intros [E|[]]; discriminate E.
Qed.

End Page.

Lemma status_filter_splits_witness :
  filteredSites (fun s => s) [tower] EmptyString None "active"
  = Some [tower].
Proof.
  refine (eq_trans
            (proj1 (status_filter_splits (fun s => s) [tower] [tower]
                      EmptyString None _)) _);
    reflexivity.
Defined.

Lemma no_filter_lists_all_witness :
  filteredSites (fun s => s) [tower] EmptyString None "all" = Some [tower].
Proof.
  apply no_filter_lists_all; [reflexivity|].
  repeat constructor. exists "Tower"%string. reflexivity.
Defined.

Lemma site_name_must_be_string_witness :
  filteredSites (fun s => s) [tower; unnamed] "tow" None "all" = None.
Proof.
  apply (site_name_must_be_string _ _ unnamed).
  - right. left. reflexivity.
  - intros [s Hs]. discriminate Hs.
Defined.

Lemma completed_site_not_active_witness :
  isCompleted (completed (Some 5) tower) = Some (JBool true)
  /\ completionDate (completed (Some 5) tower) = Some (Some 5).
Proof.
  apply (proj1 (proj2 (proj2
           (completed_site_not_active
              (fun s => s) (fun _ => EmptyString) EmptyString
              [tower] "s1" 5)))).
  - left. reflexivity.
  - reflexivity.
Defined.

Lemma funds_added_in_step_witness :
  find (fun s => strict_eq_str (id s) "s1")
       (sites
          (handleAddFunds number_of (fun _ => None) (fun _ => EmptyString)
             0 EmptyString (InsertOk (Some two_hundred_row)) Succeeded
             tower_page two_hundred).1)
  = Some (with_funds (JNum (1000 + 200)) tower).
Proof.
  exact (proj1 (proj2
           (funds_added_in_step
              number_of (fun _ => None) (fun _ => EmptyString) 0 EmptyString
              tower_page two_hundred "s1" two_hundred_row tower 1000
              ltac:(repeat split; discriminate) eq_refl eq_refl))).
Defined.

Lemma failed_update_still_success_witness :
  sites
    (handleAddFunds number_of (fun _ => None) (fun _ => EmptyString)
       0 EmptyString (InsertOk (Some two_hundred_row)) (Failed "offline")
       tower_page two_hundred).1
  = [tower].
Proof.
  exact (proj1 (failed_update_still_success
                  number_of (fun _ => None) (fun _ => EmptyString)
                  0 EmptyString tower_page two_hundred "s1"
                  two_hundred_row "offline"
                  ltac:(repeat split; discriminate))).
Defined.

Lemma nothing_recorded_without_insert_witness :
  (handleAddFunds number_of (fun _ => None) (fun _ => EmptyString)
     0 EmptyString (InsertFailed "duplicate") Succeeded
     tower_page two_hundred).1
  = tower_page.
Proof.
  apply (proj2 (nothing_recorded_without_insert
                  number_of (fun _ => None) (fun _ => EmptyString)
                  0 EmptyString (InsertFailed "duplicate") Succeeded
                  tower_page two_hundred)).
  discriminate.
Defined.

End SitesPageProperties.
